(** * Prisma: workflow state machine, result cache, capability resolver and
      persistent environment manager

    A shallow embedding of the parts of the Prisma agent that decide its
    retry, caching and recovery behaviour:

    - [src/utils/cache_helper.py] and [ExecutionNodes._cache_result]
      (module [Cache]);
    - [src/utils/capability_resolver.py] and [query_mcp_registry] of
      [src/core/tools.py] (module [Resolver]);
    - [src/core/nodes/*.py], [src/core/graph/decision_engine.py],
      [src/core/graph/graph_builder.py] and [detect_finish] of
      [src/core/tools.py] (module [Workflow]);
    - [src/utils/env_manager.py] (module [EnvManager]).

    Python [int] is [Z], [str] is [string] (ASCII text), [Optional[T]] is
    [option T], a [dict] used as a counter table is a [gmap].  Library calls
    whose result the program only inspects (the language model, [subprocess],
    [json], [hashlib], the file system) enter as parameters or as an oracle
    that is asked once per call.  The definitions come first, module by
    module; the facts about them follow. *)

From Stdlib Require Import ZArith String Ascii DecimalString.
From stdpp Require Import gmap strings list.

#[local] Set Warnings "-register-all,-clear-no-such-hyp".
Open Scope Z_scope.


(** ** Python helpers *)

Module Py.

(** [s.startswith(p)] *)
Definition startswith (s p : string) : bool := String.prefix p s.

Definition nl : string := String (ascii_of_nat 10) EmptyString.

(** [str(n)] for an [int]. *)
Definition str_of_int (z : Z) : string := NilZero.string_of_int (Z.to_int z).

(** [sep.join(l)] *)
Fixpoint join (sep : string) (l : list string) : string :=
  match l with
  | [] => ""
  | [x] => x
  | x :: tl => x +:+ sep +:+ join sep tl
  end.

(** [sub in s] for strings. *)
Fixpoint contains (s sub : string) : bool :=
  String.prefix sub s ||
  match s with
  | EmptyString => false
  | String _ tl => contains tl sub
  end.

Definition lower_ascii (c : ascii) : ascii :=
  let n := nat_of_ascii c in
  if (65 <=? n)%nat && (n <=? 90)%nat then ascii_of_nat (n + 32) else c.

Fixpoint map_chars (f : ascii -> ascii) (s : string) : string :=
  match s with
  | EmptyString => EmptyString
  | String c tl => String (f c) (map_chars f tl)
  end.

(** [sub] occurs in [s]. *)
Definition occurs_in (sub s : string) : Prop := exists a b, s = a +:+ sub +:+ b.

(** [s.lower()] *)
Definition lower : string -> string := map_chars lower_ascii.

(** [s.replace(" ", "_")] *)
Definition replace_space_underscore : string -> string :=
  map_chars (fun c => if Ascii.eqb c " "%char then "_"%char else c).

(** [s[:n]] *)
Definition take (n : nat) (s : string) : string := String.substring 0 n s.

(** The ASCII characters [str.strip()] removes: tab to carriage return, the
    four separators 28 to 31, and the space. *)
Definition is_space (c : ascii) : bool :=
  let n := nat_of_ascii c in
  ((9 <=? n)%nat && (n <=? 13)%nat) || ((28 <=? n)%nat && (n <=? 32)%nat).

Fixpoint lstrip (s : string) : string :=
  match s with
  | String c tl => if is_space c then lstrip tl else s
  | EmptyString => EmptyString
  end.

Fixpoint rstrip (s : string) : string :=
  match s with
  | EmptyString => EmptyString
  | String c tl =>
      match rstrip tl with
      | EmptyString => if is_space c then EmptyString else String c EmptyString
      | r => String c r
      end
  end.

(** [s.strip()] *)
Definition strip (s : string) : string := rstrip (lstrip s).

(** [l[i]] with Python's negative indices; [None] is [IndexError]. *)
Definition list_get {A} (l : list A) (i : Z) : option A :=
  if (i <? 0)%Z then
    if (i + Z.of_nat (length l) <? 0)%Z then None
    else l !! Z.to_nat (i + Z.of_nat (length l))
  else l !! Z.to_nat i.

(** [len(l)] *)
Definition len {A} (l : list A) : Z := Z.of_nat (length l).

(** [repr] of a list of plain strings, as an f-string shows it. *)
Definition repr_str_list (l : list string) : string :=
  "[" +:+ join ", " ((fun s => "'" +:+ s +:+ "'") <$> l) +:+ "]".

(** [list(dict.fromkeys(l))]: first occurrences, in order. *)
Fixpoint dedup_keep_first (seen l : list string) : list string :=
  match l with
  | [] => []
  | x :: tl =>
      if bool_decide (x ∈ seen) then dedup_keep_first seen tl
      else x :: dedup_keep_first (x :: seen) tl
  end.

(** JSON-shaped values: what [json.loads] yields and [json.dumps] takes. *)
Inductive json : Type :=
| JNull
| JBool (b : bool)
| JInt (z : Z)
| JStr (s : string)
| JList (l : list json)
| JDict (d : list (string * json)).

(** A [dict] with string keys, in insertion order. *)
Definition dict : Type := list (string * json).

(** [d.get(k)] *)
Definition dict_get (d : dict) (k : string) : option json :=
  snd <$> List.find (fun kv => String.eqb (fst kv) k) d.

(** [k in d] *)
Definition dict_has (d : dict) (k : string) : bool :=
  match dict_get d k with Some _ => true | None => false end.

(** [bool(v)] of a JSON value. *)
Definition json_truthy (v : json) : bool :=
  match v with
  | JNull => false
  | JBool b => b
  | JInt z => negb (Z.eqb z 0)
  | JStr s => negb (String.eqb s "")
  | JList l => match l with [] => false | _ :: _ => true end
  | JDict d => match d with [] => false | _ :: _ => true end
  end.

(** Dynamically typed values, for the places where the program tests the
    truth value of something that is not a [bool]. *)
Inductive pyval : Type :=
| PyNone
| PyBool (b : bool)
| PyInt (z : Z)
| PyStr (s : string)
| PyTuple (items : list pyval)
| PyList (items : list pyval).

(** [bool(v)] *)
Definition truthy (v : pyval) : bool :=
  match v with
  | PyNone => false
  | PyBool b => b
  | PyInt z => negb (Z.eqb z 0)
  | PyStr s => negb (String.eqb s "")
  | PyTuple items | PyList items =>
      match items with [] => false | _ :: _ => true end
  end.

(** Truth value of an [Optional[str]]. *)
Definition truthy_opt_str (o : option string) : bool :=
  match o with
  | Some s => negb (String.eqb s "")
  | None => false
  end.

(** [str(o)] of an [Optional[str]] inside an f-string. *)
Definition str_of_opt (o : option string) : string := default "None" o.

End Py.

(** ** The result cache: [cache_helper.py] and [ExecutionNodes._cache_result] *)

Module Cache.

(** An entry of [.prisma/cache/<tool_name>/<file>]: a file whose bytes decode
    as UTF-8 to [content], or something [open(...).read()] fails on. *)
Inductive cache_file : Type :=
| TextFile (content : string)
| Unreadable (why : string).

(** The cache directory tree, by (directory under the cache base, file name),
    both as the program spells them. *)
Abbreviation store := (gmap (string * string) cache_file).

Definition CacheMiss : string :=
  "[CacheMiss] No cached output for this tool/arguments combination.".

Definition cr : ascii := ascii_of_nat 13.
Definition lf : ascii := ascii_of_nat 10.

(** What a file opened for reading in text mode hands out (universal
    newlines): a carriage return, with the line feed that follows it if there
    is one, becomes one line feed. *)
Fixpoint universal_newlines (s : string) : string :=
  match s with
  | EmptyString => EmptyString
  | String c tl =>
      if Ascii.eqb c cr then
        match tl with
        | String c' tl' =>
            if Ascii.eqb c' lf then String lf (universal_newlines tl')
            else String lf (universal_newlines tl)
        | EmptyString => String lf EmptyString
        end
      else String c (universal_newlines tl)
  end.

(** What a file opened for writing in text mode puts down for a text: every
    line feed becomes [os.linesep]. *)
Fixpoint text_mode_output (linesep : string) (s : string) : string :=
  match s with
  | EmptyString => EmptyString
  | String c tl =>
      if Ascii.eqb c lf then linesep +:+ text_mode_output linesep tl
      else String c (text_mode_output linesep tl)
  end.

(** All characters are below 128: every encoding a platform has as its
    default writes such a text as UTF-8 does. *)
Fixpoint is_ascii (s : string) : bool :=
  match s with
  | EmptyString => true
  | String c tl => (nat_of_ascii c <? 128)%nat && is_ascii tl
  end.

(** The text has a carriage return. *)
Fixpoint has_cr (s : string) : bool :=
  match s with
  | EmptyString => false
  | String c tl => Ascii.eqb c cr || has_cr tl
  end.

(** How the guarded block of [_cache_result] ends: it runs through, or
    something in it raises ([os.makedirs], [open], [write], [json.dumps]) and
    the [except Exception: pass] swallows it; [leaves] is what is at the
    entry's path afterwards (what was there before, nothing, or the
    beginning of a file). *)
Inductive write_outcome : Type :=
| Written
| WriteRaised (leaves : option cache_file).

Section WithLibraries.

(** [json.dumps(d, sort_keys=True)] and [hashlib.sha256(s.encode()).hexdigest()]. *)
Variable json_dumps_sort_keys : Py.dict -> string.
Variable sha256_hexdigest : string -> string.

(** The platform: [os.linesep], and what a UTF-8 reader finds in a file to
    which a text with characters from 128 on was written in the default
    encoding. *)
Variable os_linesep : string.
Variable in_default_encoding : string -> cache_file.

(** [input_signature or {}] *)
Definition or_empty (input_signature : option Py.dict) : Py.dict :=
  match input_signature with
  | None => []
  | Some [] => []
  | Some d => d
  end.

Definition _signature_hash (input_signature : option Py.dict) : string :=
  let sig_source := json_dumps_sort_keys (or_empty input_signature) in
  Py.take 16 (sha256_hexdigest sig_source).

(** [os.path.join(<cache base>, tool_name, f"{sig_hash}.txt")] *)
Definition cache_path (tool_name sig_hash : string) : string * string :=
  (tool_name, sig_hash +:+ ".txt").

(** [open(cache_file, "r", encoding="utf-8").read()], guarded. *)
Definition read_file (file : option cache_file) : string :=
  match file with
  | None => CacheMiss
  | Some (TextFile content) => universal_newlines content
  | Some (Unreadable e) => "[Error] Failed to read cache: " +:+ e
  end.

Definition get_cached_output (fs : store) (tool_name : string)
    (input_signature : option Py.dict) : string :=
  if String.eqb tool_name "" then "[Error] tool_name is required"
  else
    let sig_hash := _signature_hash (Some (or_empty input_signature)) in
    let cache_file := cache_path tool_name sig_hash in
    read_file (fs !! cache_file).

(** What [open(cache_file, "w")] and [f.write(result)] leave when they run
    through. *)
Definition written_file (result : string) : cache_file :=
  if is_ascii result then TextFile (text_mode_output os_linesep result)
  else in_default_encoding result.

(** [ExecutionNodes._cache_result]: the file is created or overwritten, or
    the block raises and the cache is left as the failure leaves it. *)
Definition _cache_result (fs : store) (tool_name : string) (args : Py.dict)
    (result : string) (outcome : write_outcome) : store :=
  let sig_hash := Py.take 16 (sha256_hexdigest (json_dumps_sort_keys args)) in
  let cache_file := cache_path tool_name sig_hash in
  match outcome with
  | Written => <[cache_file := written_file result]> fs
  | WriteRaised leaves => partial_alter (fun _ => leaves) cache_file fs
  end.

(** The cache after a series of writes for one tool name, the oldest first,
    into a cache that had no entries. *)
Definition cache_after (tool_name : string)
    (writes : list (Py.dict * string * write_outcome)) : store :=
  foldl (fun fs '(args, result, outcome) =>
           _cache_result fs tool_name args result outcome)
        ∅ writes.

End WithLibraries.

(** The texts of at most [n] characters, for counting the keys there can be. *)
Definition all_ascii : list ascii := ascii_of_nat <$> seq 0 256.

Fixpoint strings_upto (n : nat) : list string :=
  match n with
  | O => [EmptyString]
  | S n =>
      EmptyString
      :: (all_ascii ≫= fun c => (fun s => String c s) <$> strings_upto n)
  end.

End Cache.

(** ** The capability resolver: [capability_resolver.py], [query_mcp_registry] *)

Module Resolver.

(** A record of the tool registry, with the keys the workflow reads. *)
Record tool_record : Type := {
  tm_name : option string;
  tm_description : option string;
  tm_input : option string;
  tm_output : option string;
  tm_packages : option (list string)
}.

(** What the language model's answer to the matching prompt parses to:
    [decision.get("match") is True] and [decision.get("tool_name")]. *)
Record llm_decision : Type := {
  match_is_true : bool;
  chosen_tool_name : option string
}.

(** [query_mcp_registry]; [decision = None] stands for an answer with no JSON
    object in it, or one [json.loads] rejects. *)
Definition query_mcp_registry (registry : list tool_record)
    (decision : option llm_decision) : list tool_record :=
  match registry with
  | [] => []
  | _ :: _ =>
      match decision with
      | None => []
      | Some d =>
          if match_is_true d && Py.truthy_opt_str (chosen_tool_name d) then
            match List.find
                    (fun t => bool_decide (tm_name t = chosen_tool_name d))
                    registry with
            | Some tool_data => [tool_data]
            | None => []
            end
          else []
      end
  end.

Inductive resolution_data : Type :=
| CachedText (text : string)
| ToolMeta (tool : tool_record)
| NoData.

Record resolution : Type := {
  action : string;
  data : resolution_data
}.

Section WithLibraries.

Variable json_dumps_sort_keys : Py.dict -> string.
Variable sha256_hexdigest : string -> string.

(** [resolve_capability]; [matches] is what [query_mcp_registry] returned. *)
Definition resolve_capability (fs : Cache.store) (matches : list tool_record)
    (capability_query : string) (tool_args : option Py.dict) : resolution :=
  let tool_args := Cache.or_empty tool_args in
  let cache :=
    Cache.get_cached_output json_dumps_sort_keys sha256_hexdigest fs
      (Py.take 40 (Py.lower (Py.replace_space_underscore capability_query)))
      (Some tool_args) in
  let cache_str := cache in
  if negb (Py.startswith cache_str "[CacheMiss]")
     && negb (Py.startswith cache_str "[Error]")
  then {| action := "use_cache"; data := CachedText cache_str |}
  else
    match matches with
    | tool :: _ => {| action := "use_mcp"; data := ToolMeta tool |}
    | [] => {| action := "create_new_tool"; data := NoData |}
    end.

(** The cache lookup [resolve_capability] makes for a query. *)
Definition resolver_lookup (fs : Cache.store) (capability_query : string)
    (tool_args : option Py.dict) : string :=
  Cache.get_cached_output json_dumps_sort_keys sha256_hexdigest fs
    (Py.take 40 (Py.lower (Py.replace_space_underscore capability_query)))
    (Some (Cache.or_empty tool_args)).

(** It counts as a miss when it is the sentinel or an error text. *)
Definition lookup_misses (cache_str : string) : bool :=
  Py.startswith cache_str "[CacheMiss]" || Py.startswith cache_str "[Error]".

End WithLibraries.

End Resolver.

(** ** The workflow: state, nodes, routing decisions and graph *)

Module Workflow.

(** [WorkflowStatus] of [src/types/state.py]. *)
Inductive WorkflowStatus : Type :=
| PLANNING | RESOLVING | BRAINSTORMING | RESEARCHING | GENERATING | VALIDATING
| REGISTERING | EXECUTING | FINISHING | REVIEWING | COMPLETED | FAILED.

(** [SubtaskInfo]: a planner-made dict; a key the planner left out is [None],
    except [status] and [result], which [plan_node] defaults. *)
Record Subtask : Type := {
  id : option Z;
  description : option string;
  capability_query : option string;
  depends_on : list Z;
  sub_status : option WorkflowStatus;
  result : option string
}.

(** [AgentState]: the keys the nodes and the routing read or write.  The
    schemas are held as their JSON text.  [run_id], [tool_code],
    [tool_arguments], [memory] and the keys no node touches are left out. *)
Record AgentState : Type := mkState {
  messages : list string;
  original_query : string;
  status : option WorkflowStatus;
  subtasks : option (list Subtask);
  current_subtask_idx : Z;
  active_query : string;
  subtask_results : option (list string);
  has_more_subtasks : bool;
  current_subtask_failure_count : Z;
  tool_name : option string;
  tool_description : option string;
  tool_input_schema : option string;
  tool_output_schema : option string;
  required_packages : option (list string);
  validation_passed : bool;
  validation_error : option string;
  generation_retry_count : Z;
  need_more_research : bool;
  generated_code : option string;
  research_result : option string;
  cached_result : option string;
  final_answer : option string;
  review_passed : bool;
  review_retry_count : Z;
  resolve_action : option string
}.

(** Writing one key of the state: [state | {key: v}]. *)
Definition set_messages (v : list string) (s : AgentState) : AgentState :=
  mkState v (original_query s) (status s) (subtasks s) (current_subtask_idx s)
    (active_query s) (subtask_results s) (has_more_subtasks s)
    (current_subtask_failure_count s) (tool_name s) (tool_description s)
    (tool_input_schema s) (tool_output_schema s) (required_packages s)
    (validation_passed s) (validation_error s) (generation_retry_count s)
    (need_more_research s) (generated_code s) (research_result s) (cached_result s)
    (final_answer s) (review_passed s) (review_retry_count s) (resolve_action s).

Definition set_original_query (v : string) (s : AgentState) : AgentState :=
  mkState (messages s) v (status s) (subtasks s) (current_subtask_idx s) (active_query
    s) (subtask_results s) (has_more_subtasks s) (current_subtask_failure_count s)
    (tool_name s) (tool_description s) (tool_input_schema s) (tool_output_schema s)
    (required_packages s) (validation_passed s) (validation_error s)
    (generation_retry_count s) (need_more_research s) (generated_code s)
    (research_result s) (cached_result s) (final_answer s) (review_passed s)
    (review_retry_count s) (resolve_action s).

Definition set_status (v : option WorkflowStatus) (s : AgentState) : AgentState :=
  mkState (messages s) (original_query s) v (subtasks s) (current_subtask_idx s)
    (active_query s) (subtask_results s) (has_more_subtasks s)
    (current_subtask_failure_count s) (tool_name s) (tool_description s)
    (tool_input_schema s) (tool_output_schema s) (required_packages s)
    (validation_passed s) (validation_error s) (generation_retry_count s)
    (need_more_research s) (generated_code s) (research_result s) (cached_result s)
    (final_answer s) (review_passed s) (review_retry_count s) (resolve_action s).

Definition set_subtasks (v : option (list Subtask)) (s : AgentState) : AgentState :=
  mkState (messages s) (original_query s) (status s) v (current_subtask_idx s)
    (active_query s) (subtask_results s) (has_more_subtasks s)
    (current_subtask_failure_count s) (tool_name s) (tool_description s)
    (tool_input_schema s) (tool_output_schema s) (required_packages s)
    (validation_passed s) (validation_error s) (generation_retry_count s)
    (need_more_research s) (generated_code s) (research_result s) (cached_result s)
    (final_answer s) (review_passed s) (review_retry_count s) (resolve_action s).

Definition set_current_subtask_idx (v : Z) (s : AgentState) : AgentState :=
  mkState (messages s) (original_query s) (status s) (subtasks s) v (active_query s)
    (subtask_results s) (has_more_subtasks s) (current_subtask_failure_count s)
    (tool_name s) (tool_description s) (tool_input_schema s) (tool_output_schema s)
    (required_packages s) (validation_passed s) (validation_error s)
    (generation_retry_count s) (need_more_research s) (generated_code s)
    (research_result s) (cached_result s) (final_answer s) (review_passed s)
    (review_retry_count s) (resolve_action s).

Definition set_active_query (v : string) (s : AgentState) : AgentState :=
  mkState (messages s) (original_query s) (status s) (subtasks s) (current_subtask_idx
    s) v (subtask_results s) (has_more_subtasks s) (current_subtask_failure_count s)
    (tool_name s) (tool_description s) (tool_input_schema s) (tool_output_schema s)
    (required_packages s) (validation_passed s) (validation_error s)
    (generation_retry_count s) (need_more_research s) (generated_code s)
    (research_result s) (cached_result s) (final_answer s) (review_passed s)
    (review_retry_count s) (resolve_action s).

Definition set_subtask_results (v : option (list string)) (s : AgentState) : AgentState :=
  mkState (messages s) (original_query s) (status s) (subtasks s) (current_subtask_idx
    s) (active_query s) v (has_more_subtasks s) (current_subtask_failure_count s)
    (tool_name s) (tool_description s) (tool_input_schema s) (tool_output_schema s)
    (required_packages s) (validation_passed s) (validation_error s)
    (generation_retry_count s) (need_more_research s) (generated_code s)
    (research_result s) (cached_result s) (final_answer s) (review_passed s)
    (review_retry_count s) (resolve_action s).

Definition set_has_more_subtasks (v : bool) (s : AgentState) : AgentState :=
  mkState (messages s) (original_query s) (status s) (subtasks s) (current_subtask_idx
    s) (active_query s) (subtask_results s) v (current_subtask_failure_count s)
    (tool_name s) (tool_description s) (tool_input_schema s) (tool_output_schema s)
    (required_packages s) (validation_passed s) (validation_error s)
    (generation_retry_count s) (need_more_research s) (generated_code s)
    (research_result s) (cached_result s) (final_answer s) (review_passed s)
    (review_retry_count s) (resolve_action s).

Definition set_current_subtask_failure_count (v : Z) (s : AgentState) : AgentState :=
  mkState (messages s) (original_query s) (status s) (subtasks s) (current_subtask_idx
    s) (active_query s) (subtask_results s) (has_more_subtasks s) v (tool_name s)
    (tool_description s) (tool_input_schema s) (tool_output_schema s) (required_packages
    s) (validation_passed s) (validation_error s) (generation_retry_count s)
    (need_more_research s) (generated_code s) (research_result s) (cached_result s)
    (final_answer s) (review_passed s) (review_retry_count s) (resolve_action s).

Definition set_tool_name (v : option string) (s : AgentState) : AgentState :=
  mkState (messages s) (original_query s) (status s) (subtasks s) (current_subtask_idx
    s) (active_query s) (subtask_results s) (has_more_subtasks s)
    (current_subtask_failure_count s) v (tool_description s) (tool_input_schema s)
    (tool_output_schema s) (required_packages s) (validation_passed s) (validation_error
    s) (generation_retry_count s) (need_more_research s) (generated_code s)
    (research_result s) (cached_result s) (final_answer s) (review_passed s)
    (review_retry_count s) (resolve_action s).

Definition set_tool_description (v : option string) (s : AgentState) : AgentState :=
  mkState (messages s) (original_query s) (status s) (subtasks s) (current_subtask_idx
    s) (active_query s) (subtask_results s) (has_more_subtasks s)
    (current_subtask_failure_count s) (tool_name s) v (tool_input_schema s)
    (tool_output_schema s) (required_packages s) (validation_passed s) (validation_error
    s) (generation_retry_count s) (need_more_research s) (generated_code s)
    (research_result s) (cached_result s) (final_answer s) (review_passed s)
    (review_retry_count s) (resolve_action s).

Definition set_tool_input_schema (v : option string) (s : AgentState) : AgentState :=
  mkState (messages s) (original_query s) (status s) (subtasks s) (current_subtask_idx
    s) (active_query s) (subtask_results s) (has_more_subtasks s)
    (current_subtask_failure_count s) (tool_name s) (tool_description s) v
    (tool_output_schema s) (required_packages s) (validation_passed s) (validation_error
    s) (generation_retry_count s) (need_more_research s) (generated_code s)
    (research_result s) (cached_result s) (final_answer s) (review_passed s)
    (review_retry_count s) (resolve_action s).

Definition set_tool_output_schema (v : option string) (s : AgentState) : AgentState :=
  mkState (messages s) (original_query s) (status s) (subtasks s) (current_subtask_idx
    s) (active_query s) (subtask_results s) (has_more_subtasks s)
    (current_subtask_failure_count s) (tool_name s) (tool_description s)
    (tool_input_schema s) v (required_packages s) (validation_passed s)
    (validation_error s) (generation_retry_count s) (need_more_research s)
    (generated_code s) (research_result s) (cached_result s) (final_answer s)
    (review_passed s) (review_retry_count s) (resolve_action s).

Definition set_required_packages (v : option (list string)) (s : AgentState) : AgentState :=
  mkState (messages s) (original_query s) (status s) (subtasks s) (current_subtask_idx
    s) (active_query s) (subtask_results s) (has_more_subtasks s)
    (current_subtask_failure_count s) (tool_name s) (tool_description s)
    (tool_input_schema s) (tool_output_schema s) v (validation_passed s)
    (validation_error s) (generation_retry_count s) (need_more_research s)
    (generated_code s) (research_result s) (cached_result s) (final_answer s)
    (review_passed s) (review_retry_count s) (resolve_action s).

Definition set_validation_passed (v : bool) (s : AgentState) : AgentState :=
  mkState (messages s) (original_query s) (status s) (subtasks s) (current_subtask_idx
    s) (active_query s) (subtask_results s) (has_more_subtasks s)
    (current_subtask_failure_count s) (tool_name s) (tool_description s)
    (tool_input_schema s) (tool_output_schema s) (required_packages s) v
    (validation_error s) (generation_retry_count s) (need_more_research s)
    (generated_code s) (research_result s) (cached_result s) (final_answer s)
    (review_passed s) (review_retry_count s) (resolve_action s).

Definition set_validation_error (v : option string) (s : AgentState) : AgentState :=
  mkState (messages s) (original_query s) (status s) (subtasks s) (current_subtask_idx
    s) (active_query s) (subtask_results s) (has_more_subtasks s)
    (current_subtask_failure_count s) (tool_name s) (tool_description s)
    (tool_input_schema s) (tool_output_schema s) (required_packages s)
    (validation_passed s) v (generation_retry_count s) (need_more_research s)
    (generated_code s) (research_result s) (cached_result s) (final_answer s)
    (review_passed s) (review_retry_count s) (resolve_action s).

Definition set_generation_retry_count (v : Z) (s : AgentState) : AgentState :=
  mkState (messages s) (original_query s) (status s) (subtasks s) (current_subtask_idx
    s) (active_query s) (subtask_results s) (has_more_subtasks s)
    (current_subtask_failure_count s) (tool_name s) (tool_description s)
    (tool_input_schema s) (tool_output_schema s) (required_packages s)
    (validation_passed s) (validation_error s) v (need_more_research s) (generated_code
    s) (research_result s) (cached_result s) (final_answer s) (review_passed s)
    (review_retry_count s) (resolve_action s).

Definition set_need_more_research (v : bool) (s : AgentState) : AgentState :=
  mkState (messages s) (original_query s) (status s) (subtasks s) (current_subtask_idx
    s) (active_query s) (subtask_results s) (has_more_subtasks s)
    (current_subtask_failure_count s) (tool_name s) (tool_description s)
    (tool_input_schema s) (tool_output_schema s) (required_packages s)
    (validation_passed s) (validation_error s) (generation_retry_count s) v
    (generated_code s) (research_result s) (cached_result s) (final_answer s)
    (review_passed s) (review_retry_count s) (resolve_action s).

Definition set_generated_code (v : option string) (s : AgentState) : AgentState :=
  mkState (messages s) (original_query s) (status s) (subtasks s) (current_subtask_idx
    s) (active_query s) (subtask_results s) (has_more_subtasks s)
    (current_subtask_failure_count s) (tool_name s) (tool_description s)
    (tool_input_schema s) (tool_output_schema s) (required_packages s)
    (validation_passed s) (validation_error s) (generation_retry_count s)
    (need_more_research s) v (research_result s) (cached_result s) (final_answer s)
    (review_passed s) (review_retry_count s) (resolve_action s).

Definition set_research_result (v : option string) (s : AgentState) : AgentState :=
  mkState (messages s) (original_query s) (status s) (subtasks s) (current_subtask_idx
    s) (active_query s) (subtask_results s) (has_more_subtasks s)
    (current_subtask_failure_count s) (tool_name s) (tool_description s)
    (tool_input_schema s) (tool_output_schema s) (required_packages s)
    (validation_passed s) (validation_error s) (generation_retry_count s)
    (need_more_research s) (generated_code s) v (cached_result s) (final_answer s)
    (review_passed s) (review_retry_count s) (resolve_action s).

Definition set_cached_result (v : option string) (s : AgentState) : AgentState :=
  mkState (messages s) (original_query s) (status s) (subtasks s) (current_subtask_idx
    s) (active_query s) (subtask_results s) (has_more_subtasks s)
    (current_subtask_failure_count s) (tool_name s) (tool_description s)
    (tool_input_schema s) (tool_output_schema s) (required_packages s)
    (validation_passed s) (validation_error s) (generation_retry_count s)
    (need_more_research s) (generated_code s) (research_result s) v (final_answer s)
    (review_passed s) (review_retry_count s) (resolve_action s).

Definition set_final_answer (v : option string) (s : AgentState) : AgentState :=
  mkState (messages s) (original_query s) (status s) (subtasks s) (current_subtask_idx
    s) (active_query s) (subtask_results s) (has_more_subtasks s)
    (current_subtask_failure_count s) (tool_name s) (tool_description s)
    (tool_input_schema s) (tool_output_schema s) (required_packages s)
    (validation_passed s) (validation_error s) (generation_retry_count s)
    (need_more_research s) (generated_code s) (research_result s) (cached_result s) v
    (review_passed s) (review_retry_count s) (resolve_action s).

Definition set_review_passed (v : bool) (s : AgentState) : AgentState :=
  mkState (messages s) (original_query s) (status s) (subtasks s) (current_subtask_idx
    s) (active_query s) (subtask_results s) (has_more_subtasks s)
    (current_subtask_failure_count s) (tool_name s) (tool_description s)
    (tool_input_schema s) (tool_output_schema s) (required_packages s)
    (validation_passed s) (validation_error s) (generation_retry_count s)
    (need_more_research s) (generated_code s) (research_result s) (cached_result s)
    (final_answer s) v (review_retry_count s) (resolve_action s).

Definition set_review_retry_count (v : Z) (s : AgentState) : AgentState :=
  mkState (messages s) (original_query s) (status s) (subtasks s) (current_subtask_idx
    s) (active_query s) (subtask_results s) (has_more_subtasks s)
    (current_subtask_failure_count s) (tool_name s) (tool_description s)
    (tool_input_schema s) (tool_output_schema s) (required_packages s)
    (validation_passed s) (validation_error s) (generation_retry_count s)
    (need_more_research s) (generated_code s) (research_result s) (cached_result s)
    (final_answer s) (review_passed s) v (resolve_action s).

Definition set_resolve_action (v : option string) (s : AgentState) : AgentState :=
  mkState (messages s) (original_query s) (status s) (subtasks s) (current_subtask_idx
    s) (active_query s) (subtask_results s) (has_more_subtasks s)
    (current_subtask_failure_count s) (tool_name s) (tool_description s)
    (tool_input_schema s) (tool_output_schema s) (required_packages s)
    (validation_passed s) (validation_error s) (generation_retry_count s)
    (need_more_research s) (generated_code s) (research_result s) (cached_result s)
    (final_answer s) (review_passed s) (review_retry_count s) v.
(** [messages] is the one key with a reducer ([operator.add]): an update
    appends to it. *)
Definition add_messages (new : list string) (s : AgentState) : AgentState :=
  set_messages (messages s ++ new) s.

(** [create_default_agent_state] *)
Definition create_default_agent_state (query : string) : AgentState :=
  {| messages := [query];
     original_query := query;
     status := None;
     subtasks := None;
     current_subtask_idx := 0;
     active_query := query;
     subtask_results := None;
     has_more_subtasks := false;
     current_subtask_failure_count := 0;
     tool_name := None;
     tool_description := None;
     tool_input_schema := None;
     tool_output_schema := None;
     required_packages := None;
     validation_passed := false;
     validation_error := None;
     generation_retry_count := 0;
     need_more_research := false;
     generated_code := None;
     research_result := None;
     cached_result := None;
     final_answer := None;
     review_passed := false;
     review_retry_count := 0;
     resolve_action := None |}.

(** *** Planning nodes *)

(** What [llm_json_task] hands to [plan_node]: the extracted JSON ([None], a
    dict, or a list whose items are dicts or not) and the raw text. *)
Inductive planner_json : Type :=
| PlanNone
| PlanDict
| PlanList (items : list (option Subtask)).

Definition fallback_subtask (query : string) : Subtask :=
  {| id := Some 1; description := Some query; capability_query := Some query;
     depends_on := []; sub_status := None; result := None |}.

(** [for subtask in result: subtask.setdefault(...)]: an item that is no dict
    raises. *)
Fixpoint all_dicts (items : list (option Subtask)) : option (list Subtask) :=
  match items with
  | [] => Some []
  | Some st :: tl => cons st <$> all_dicts tl
  | None :: _ => None
  end.

(** [plan_node]; [None] when the node raises. *)
Definition plan_node (llm : planner_json) (state : AgentState) : option AgentState :=
  let query := original_query state in
  let result :=
    match llm with
    | PlanList (it :: items) => it :: items
    | _ => [Some (fallback_subtask query)]
    end in
  match all_dicts result with
  | None => None
  | Some result =>
      match result with
      | [] => None
      | first :: _ =>
          match capability_query first with
          | None => None
          | Some q =>
              Some (set_subtask_results (Some [])
                   (set_active_query q
                   (set_current_subtask_idx 0
                   (set_subtasks (Some result)
                   (set_status (Some PLANNING) state)))))
          end
      end
  end.

(** [maybe_request_user_input_node]: [answer] is the model's reply and
    [user_response] what the user typed. *)
Definition maybe_request_user_input_node (interactive : bool)
    (answer user_response : string) (state : AgentState) : AgentState :=
  if negb interactive then state
  else if negb (String.eqb (Py.lower (Py.strip answer)) "continue")
  then add_messages ["User feedback: " +:+ user_response] state
  else state.

Definition mark_resolving (st : Subtask) : Subtask :=
  {| id := id st; description := description st;
     capability_query := capability_query st; depends_on := depends_on st;
     sub_status := Some RESOLVING; result := result st |}.

(** [next_subtask_node]; the subtask dict is updated in place, so the list in
    the state changes with it. *)
Definition next_subtask_node (state : AgentState) : option AgentState :=
  let idx := current_subtask_idx state in
  match subtasks state with
  | None | Some [] =>
      Some (set_has_more_subtasks false (set_status (Some COMPLETED) state))
  | Some subtasks =>
      if (idx >=? Py.len subtasks)%Z then
        Some (set_has_more_subtasks false (set_status (Some COMPLETED) state))
      else
        match Py.list_get subtasks idx with
        | None => None
        | Some subtask =>
            match description subtask, capability_query subtask with
            | Some _, Some q =>
                let subtasks' :=
                  if (idx <? 0)%Z
                  then <[Z.to_nat (idx + Py.len subtasks) := mark_resolving subtask]> subtasks
                  else <[Z.to_nat idx := mark_resolving subtask]> subtasks in
                Some (set_has_more_subtasks true
                     (set_active_query q
                     (set_status (Some RESOLVING)
                     (set_subtasks (Some subtasks') state))))
            | _, _ => None
            end
        end
  end.

(** *** Capability nodes *)

(** [resolve_node]; [result] is what [resolve_capability] returned. *)
Definition resolve_node (result : Resolver.resolution) (state : AgentState)
    : option AgentState :=
  let state' := set_resolve_action (Some (Resolver.action result)) state in
  if String.eqb (Resolver.action result) "use_cache" then
    match Resolver.data result, subtask_results state with
    | Resolver.CachedText cache_output, Some results =>
        Some (set_subtask_results (Some (results ++ [cache_output]))
             (set_cached_result (Some cache_output) state'))
    | _, _ => None
    end
  else if String.eqb (Resolver.action result) "use_mcp" then
    match Resolver.data result with
    | Resolver.ToolMeta tool_meta =>
        Some (set_required_packages
                (Some (default [] (Resolver.tm_packages tool_meta)))
             (set_tool_output_schema (Resolver.tm_output tool_meta)
             (set_tool_input_schema (Resolver.tm_input tool_meta)
             (set_tool_description (Resolver.tm_description tool_meta)
             (set_tool_name (Resolver.tm_name tool_meta) state')))))
    | _ => None
    end
  else Some state'.

(** What the brainstorm call comes to after the defensive JSON extraction. *)
Inductive brainstorm_outcome : Type :=
| BrainstormTool (json_text name description input_schema output_schema : string)
    (packages : option (list string))
| BrainstormInvalidFormat (raw : string)
| BrainstormMissingFields (missing_fields : list string)
| BrainstormException (e : string).

Definition brainstorm_node (llm : brainstorm_outcome) (state : AgentState) : AgentState :=
  let failed error_msg :=
    add_messages [error_msg]
      (set_status (Some FAILED) (set_validation_error (Some error_msg) state)) in
  match llm with
  | BrainstormTool json_text name description input_schema output_schema packages =>
      set_validation_error None
        (set_required_packages (Some (default [] packages))
        (set_tool_output_schema (Some output_schema)
        (set_tool_input_schema (Some input_schema)
        (set_tool_description (Some description)
        (set_tool_name (Some name)
        (add_messages [json_text]
        (set_status (Some BRAINSTORMING) state)))))))
  | BrainstormInvalidFormat raw =>
      failed ("Invalid brainstorm response format. Raw: " +:+ Py.take 300 raw +:+ "...")
  | BrainstormMissingFields missing_fields =>
      failed ("Missing required fields: " +:+ Py.repr_str_list missing_fields)
  | BrainstormException e =>
      failed ("Brainstorm execution failed: " +:+ e)
  end.

Definition research_node (state : AgentState) : AgentState :=
  let research_result :=
    "Research for " +:+ Py.str_of_opt (tool_name state) +:+ " capability" in
  set_research_result (Some research_result) (add_messages [research_result] state).

(** The [requirements] list of [generate_node]. *)
Definition generate_requirements (state : AgentState) : list string :=
  [ "Function name: " +:+ Py.str_of_opt (tool_name state);
    "Description: " +:+ Py.str_of_opt (tool_description state);
    "Input: " +:+ default "null" (tool_input_schema state);
    "Output: " +:+ default "null" (tool_output_schema state);
    "Packages: " +:+
      match required_packages state with
      | Some l => Py.repr_str_list l
      | None => "None"
      end ]
  ++ (if Py.truthy_opt_str (validation_error state)
      then ["Fix this error: " +:+ Py.str_of_opt (validation_error state)]
      else []).

(** [generate_node]; [script_generate requirements references] is the code
    the language model writes for them. *)
Definition generate_node (script_generate : string -> option string -> string)
    (state : AgentState) : AgentState :=
  let requirements := generate_requirements state in
  let code :=
    Py.strip (script_generate (Py.join Py.nl requirements) (research_result state)) in
  if Py.contains code "NEED_MORE_INFO" || Py.startswith code "Need more" then
    set_need_more_research true (set_status (Some RESEARCHING) state)
  else
    set_validation_error None
      (set_validation_passed false
      (set_generated_code (Some code)
      (set_status (Some GENERATING) state))).

(** [validate_node]; [result] is what [code_execute_local] returned for the
    generated code. *)
Definition validate_node (result : string) (state : AgentState) : AgentState :=
  let success := negb (Py.startswith result "[Error]") in
  set_generation_retry_count (generation_retry_count state + 1)
    (set_validation_error (if success then None else Some result)
    (set_validation_passed success state)).

Definition register_node (state : AgentState) : AgentState :=
  add_messages
    ["Tool '" +:+ Py.str_of_opt (tool_name state) +:+ "' registered successfully"]
    state.

(** *** Execution nodes *)

(** [prepare_args_node] writes [tool_arguments] only. *)
Definition prepare_args_node (state : AgentState) : AgentState := state.

(** [execute_node]; [cached] is the cache's answer, [result] what running the
    tool returns when the cache misses.  [None] when the node raises. *)
Definition execute_node (cached result : string) (state : AgentState)
    : option AgentState :=
  let out :=
    if negb (Py.startswith cached "[CacheMiss]" || Py.startswith cached "[Error]")
    then cached else result in
  match subtask_results state with
  | None => None
  | Some results =>
      Some (set_subtask_results (Some (results ++ [out])) (add_messages [out] state))
  end.

(** *** Completion nodes *)

(** [l[-1]] of a non-empty list. *)
Definition last_opt {A} (l : list A) : option A := List.last (Some <$> l) None.

Definition finish_node (state : AgentState) : option AgentState :=
  let final_content :=
    match last_opt (messages state) with
    | Some content => content
    | None =>
        match subtask_results state with
        | Some results => default "[No output]" (last_opt results)
        | None => "[No output]"
        end
    end in
  let current_idx := current_subtask_idx state in
  match subtasks state with
  | None => None
  | Some subtasks =>
      let next_idx := current_idx + 1 in
      let has_more := (next_idx <? Py.len subtasks)%Z in
      let answer :=
        if Py.startswith final_content "[Error]"
        then Some ("Error: " +:+ final_content)
        else
          match subtask_results state with
          | None => None
          | Some results =>
              if (Py.len results >? 1)%Z
              then Some ("Combined results:" +:+ Py.nl +:+
                         Py.join (Py.nl +:+ "---" +:+ Py.nl) results)
              else Some final_content
          end in
      match answer with
      | None => None
      | Some answer =>
          let updates :=
            set_current_subtask_failure_count 0
              (add_messages ["Completed: " +:+ answer]
              (set_has_more_subtasks has_more
              (set_final_answer (Some answer) state))) in
          if has_more
          then Some (set_current_subtask_idx next_idx updates)
          else Some updates
      end
  end.

(** What the call of the [detect_finish] tool comes to before any parsing: it
    raised (the model call failed, or its answer has no text content), or the
    model returned a message with this content. *)
Inductive llm_reply : Type :=
| LLMRaised
| LLMContent (content : string).

(** [re.search(r"\{.*\}", s, re.DOTALL)]: from the first opening brace to the
    last closing brace after it. *)
Fixpoint upto_last_close (s : string) : option string :=
  match s with
  | EmptyString => None
  | String c tl =>
      match upto_last_close tl with
      | Some r => Some (String c r)
      | None => if Ascii.eqb c "}"%char then Some (String c EmptyString) else None
      end
  end.

Fixpoint search_braces (s : string) : option string :=
  match s with
  | EmptyString => None
  | String c tl =>
      if Ascii.eqb c "{"%char then upto_last_close s else search_braces tl
  end.

(** What [json.loads] does with a text that starts with an opening brace: it
    returns the dict, raises [JSONDecodeError], or raises something else
    ([RecursionError] on deep nesting, [ValueError] on an integer literal
    with more digits than the interpreter converts). *)
Inductive loads_outcome : Type :=
| Loaded (result : Py.dict)
| JSONDecodeError
| LoadsRaised.

Section WithJson.

Variable json_loads : string -> loads_outcome.

Definition not_finished (why response_content : string) : Py.dict :=
  [("finish", Py.JBool false); ("reason", Py.JStr (why +:+ response_content))].

Definition is_bool (v : option Py.json) : bool :=
  match v with Some (Py.JBool _) => true | _ => false end.

(** ["finish" not in result or "reason" not in result or
    not isinstance(result.get("finish"), bool)] *)
Definition malformed (result : Py.dict) : bool :=
  negb (Py.dict_has result "finish")
  || negb (Py.dict_has result "reason")
  || negb (is_bool (Py.dict_get result "finish")).

(** [detect_finish], from the content of the model's answer on; [None] when
    it raises: only [JSONDecodeError] is caught. *)
Definition detect_finish (content : string) : option Py.dict :=
  let response_content := Py.strip content in
  match search_braces response_content with
  | None => Some (not_finished "LLM did not return valid JSON: " response_content)
  | Some json_string =>
      match json_loads json_string with
      | Loaded result =>
          if malformed result
          then Some (not_finished "LLM returned malformed JSON: " response_content)
          else Some result
      | JSONDecodeError =>
          Some (not_finished "LLM did not return valid JSON: " response_content)
      | LoadsRaised => None
      end
  end.

(** The answer does not parse into a finish/reason verdict: no JSON object
    in it, one [json.loads] rejects as no JSON, or one without a boolean
    [finish] and a [reason]. *)
Definition unparsable (content : string) : bool :=
  match search_braces (Py.strip content) with
  | None => true
  | Some json_string =>
      match json_loads json_string with
      | Loaded result => malformed result
      | JSONDecodeError => true
      | LoadsRaised => false
      end
  end.

(** [json.loads] raises on the answer's JSON text, and not [JSONDecodeError]. *)
Definition loads_raises (content : string) : bool :=
  match search_braces (Py.strip content) with
  | None => false
  | Some json_string =>
      match json_loads json_string with
      | LoadsRaised => true
      | _ => false
      end
  end.

(** [review_node]: an exception of the [detect_finish] call is caught and the
    answer accepted.  The tool checks its arguments first: [current_answer]
    is declared a [str], so the call raises when the state's [final_answer]
    is [None]. *)
Definition review_node (llm : llm_reply) (state : AgentState) : AgentState :=
  let passed :=
    match final_answer state with
    | None => true
    | Some answer_text =>
        match llm with
        | LLMRaised => true
        | LLMContent content =>
            match detect_finish content with
            | None => true
            | Some review =>
                match Py.dict_get review "finish" with
                | Some v => Py.json_truthy v
                | None => false
                end
            end
        end
    end in
  let retry_count := review_retry_count state in
  let retry_count := if negb passed then retry_count + 1 else 0 in
  set_review_retry_count retry_count (set_review_passed passed state).

End WithJson.

Definition fail_node (state : AgentState) : AgentState :=
  let error := validation_error state in
  let current_failures := current_subtask_failure_count state + 1 in
  if (current_failures >=? 3)%Z then
    set_current_subtask_failure_count current_failures
      (set_has_more_subtasks false
      (set_final_answer
         (Some ("Error: Subtask failed after maximum retries ("
                +:+ Py.str_of_int current_failures +:+ "). Last error: "
                +:+ Py.str_of_opt error))
      (add_messages
         ["Subtask failed after " +:+ Py.str_of_int current_failures
          +:+ " attempts. Terminating workflow."] state)))
  else
    set_validation_error error
      (set_current_subtask_failure_count current_failures
      (add_messages
         ["Subtask failed (attempt " +:+ Py.str_of_int current_failures
          +:+ "/3): " +:+ Py.str_of_opt error] state)).

(** *** [DecisionEngine] *)

Definition MAX_RETRIES : Z := 3.

Definition decide_resolution (state : AgentState) : string :=
  let action := resolve_action state in
  match action with
  | Some a =>
      if String.eqb a "use_cache" then "cache"
      else if String.eqb a "use_mcp" then "existing"
      else "create"
  | None => "create"
  end.

Definition decide_generation (state : AgentState) : string :=
  if Py.truthy_opt_str (validation_error state) then "fail"
  else if need_more_research state then "research"
  else "validate".

Definition decide_validation (state : AgentState) : string :=
  if validation_passed state then "register"
  else
    let retry_count := generation_retry_count state in
    if (retry_count <? MAX_RETRIES)%Z then "retry" else "fail".

Definition decide_brainstorm (state : AgentState) : string :=
  if Py.truthy_opt_str (validation_error state) then "fail" else "continue".

Definition decide_prepare_args (state : AgentState) : string :=
  if Py.truthy_opt_str (validation_error state) then "fail" else "execute".

Definition decide_finish (state : AgentState) : string :=
  if (current_subtask_failure_count state >=? 3)%Z then "end"
  else if has_more_subtasks state then "next"
  else "review".

Definition decide_review (state : AgentState) : string :=
  if review_passed state then "end"
  else if (review_retry_count state >=? 3)%Z then "fail"
  else "plan".

Definition decide_failure (state : AgentState) : string :=
  if (current_subtask_failure_count state >=? 3)%Z then "end" else "retry".

(** *** [GraphBuilder]: nodes and edges *)

Inductive Node : Type :=
| n_plan | n_maybe_request_user_input | n_next_subtask
| n_resolve | n_brainstorm | n_research | n_generate | n_validate | n_register
| n_prepare_args | n_execute
| n_finish | n_review | n_fail
| n_END.

(** A conditional edge: the decision's string looked up in the edge's table. *)
Fixpoint route (table : list (string * Node)) (decision : string) : option Node :=
  match table with
  | [] => None
  | (k, n) :: tl => if String.eqb k decision then Some n else route tl decision
  end.

(** [_add_edges]: the node to run after [n], read off the merged state. *)
Definition next_node (n : Node) (state : AgentState) : option Node :=
  match n with
  | n_plan => Some n_maybe_request_user_input
  | n_maybe_request_user_input => Some n_next_subtask
  | n_next_subtask => Some n_resolve
  | n_research => Some n_generate
  | n_register => Some n_finish
  | n_execute => Some n_finish
  | n_fail =>
      route [("end", n_END); ("retry", n_next_subtask)] (decide_failure state)
  | n_resolve =>
      route [("cache", n_finish); ("existing", n_prepare_args); ("create", n_brainstorm)]
        (decide_resolution state)
  | n_brainstorm =>
      route [("continue", n_research); ("fail", n_fail)] (decide_brainstorm state)
  | n_generate =>
      route [("research", n_research); ("validate", n_validate); ("fail", n_fail)]
        (decide_generation state)
  | n_validate =>
      route [("register", n_register); ("retry", n_generate); ("fail", n_fail)]
        (decide_validation state)
  | n_prepare_args =>
      route [("execute", n_execute); ("fail", n_fail)] (decide_prepare_args state)
  | n_finish =>
      route [("next", n_next_subtask); ("review", n_review); ("end", n_END)]
        (decide_finish state)
  | n_review =>
      route [("end", n_END); ("plan", n_plan); ("fail", n_fail)] (decide_review state)
  | n_END => None
  end.

(** What a node gets from outside the state when it runs. *)
Inductive external : Type :=
| ext_none
| ext_plan (llm : planner_json)
| ext_user_input (interactive : bool) (answer user_response : string)
| ext_resolve (result : Resolver.resolution)
| ext_brainstorm (llm : brainstorm_outcome)
| ext_generate (script_generate : string -> option string -> string)
| ext_validate (result : string)
| ext_execute (cached result : string)
| ext_review (llm : llm_reply).

Section Graph.

Variable json_loads : string -> loads_outcome.

(** Running node [n]: the state merged with the node's update, or [None] when
    the node raises (or is handed an input that is not its own). *)
Definition run_node (n : Node) (x : external) (state : AgentState)
    : option AgentState :=
  match n, x with
  | n_plan, ext_plan llm => plan_node llm state
  | n_maybe_request_user_input, ext_user_input i a u =>
      Some (maybe_request_user_input_node i a u state)
  | n_next_subtask, ext_none => next_subtask_node state
  | n_resolve, ext_resolve r => resolve_node r state
  | n_brainstorm, ext_brainstorm llm => Some (brainstorm_node llm state)
  | n_research, ext_none => Some (research_node state)
  | n_generate, ext_generate g => Some (generate_node g state)
  | n_validate, ext_validate r => Some (validate_node r state)
  | n_register, ext_none => Some (register_node state)
  | n_prepare_args, ext_none => Some (prepare_args_node state)
  | n_execute, ext_execute c r => execute_node c r state
  | n_finish, ext_none => finish_node state
  | n_review, ext_review llm => Some (review_node json_loads llm state)
  | n_fail, ext_none => Some (fail_node state)
  | _, _ => None
  end.

(** One super-step of the compiled graph: run the current node, merge, follow
    the edge. *)
Inductive step : Node * AgentState -> Node * AgentState -> Prop :=
| step_intro n x s s' n' :
    run_node n x s = Some s' ->
    next_node n s' = Some n' ->
    step (n, s) (n', s').

(** The runs of the graph from its entry point [plan], as the list of the
    configurations passed, newest first. *)
Inductive run (query : string) : list (Node * AgentState) -> Prop :=
| run_entry : run query [(n_plan, create_default_agent_state query)]
| run_step c c' history :
    run query (c :: history) -> step c c' -> run query (c' :: c :: history).

Definition reachable (query : string) (c : Node * AgentState) : Prop :=
  exists history, run query (c :: history).

End Graph.

(** How often a run took the edge from [validate] back to [generate]. *)
Fixpoint loop_backs (history : list (Node * AgentState)) : nat :=
  match history with
  | c' :: rest =>
      match rest with
      | c :: _ =>
          match fst c, fst c' with
          | n_validate, n_generate => S (loop_backs rest)
          | _, _ => loop_backs rest
          end
      | [] => 0%nat
      end
  | [] => 0%nat
  end.

(** A subtask is active: the plan and the results are lists and the index
    points into the plan. *)
Definition progress_ok (s : AgentState) : Prop :=
  exists subs results,
    subtasks s = Some subs /\ subtask_results s = Some results
    /\ 0 <= current_subtask_idx s < Py.len subs.

End Workflow.

(** ** The persistent environment manager: [env_manager.py] *)

Module EnvManager.

Definition MAX_RETRIES : Z := 5.

(** [subprocess.CompletedProcess] *)
Record CompletedProcess : Type := {
  returncode : Z;
  stdout : string;
  stderr : string
}.

(** What [subprocess.run] of the user script comes to inside the [try]. *)
Inductive run_outcome : Type :=
| Ran (exec_process : CompletedProcess)
| RunRaised (e : string).

(** What the regular expressions and [json.loads] of
    [_extract_code_from_llm_output] find in a text. *)
Record json_block_data : Type := {
  jb_code : option string;
  jb_packages : option (list string);
  jb_system_packages : option (list string)
}.

Record llm_text : Type := {
  json_block : option json_block_data;
  cleaned_code : string;
  inline_packages : list string;
  raw_python_block : option string
}.

(** The machine the manager runs on, as an oracle: each field answers the
    call of its kind that is made at tick [t] of the manager's clock.
    [pip_list] is [None] when [pip list] fails or prints no JSON;
    [conda_create] is [None] when the call raises; [py_compile] is the
    [SyntaxError] of [compile(code, ...)], if any; [make_loader t f code] is
    the loader script for function [f] of the code saved to a fresh file, or
    the exception saving it raised.  [subprocess.run] without [check=True]
    is taken to return, and [os.makedirs] of the workspace to succeed. *)
Record Machine : Type := {
  environment_exists : nat -> bool;
  which_conda : nat -> bool;
  conda_create : nat -> option CompletedProcess;
  pip_list : nat -> option (list string);
  conda_meta_exists : nat -> bool;
  conda_install : nat -> list string -> CompletedProcess;
  pip_install : nat -> list string -> CompletedProcess;
  py_compile : string -> option string;
  make_loader : nat -> string -> string -> string + string;
  correction_llm : nat -> llm_text;
  run_script : nat -> string -> run_outcome
}.

(** What the manager did to the machine, oldest first. *)
Inductive event : Type :=
| ev_wipe
| ev_conda_create
| ev_conda_install (pkgs : list string) (rc : Z) (err : string)
| ev_pip_install (pkgs : list string) (rc : Z) (err : string)
| ev_install_attempt (attempt : Z)
| ev_attempt (attempt : Z) (packages system_packages : list string)
| ev_run (runtime_attempt : Z)
| ev_abort_runtime_install.

(** The fields of [PersistentEnvironmentManager] that change, a clock for the
    oracle and the trace. *)
Record Manager : Type := {
  env_path : string;
  _initialized : bool;
  installed_packages : gset string;
  clock : nat;
  trace : list event
}.

(** A state monad over the manager. *)
Definition M (A : Type) : Type := Manager -> A * Manager.

Definition ret {A} (a : A) : M A := fun m => (a, m).

Definition bind {A B} (c : M A) (k : A -> M B) : M B :=
  fun m => let '(a, m') := c m in k a m'.

Declare Scope manager_scope.
Delimit Scope manager_scope with manager.
Notation "x <- c ;; k" := (bind c (fun x => k))
  (at level 100, c at next level, right associativity) : manager_scope.
Notation "c ;; k" := (bind c (fun _ => k))
  (at level 100, right associativity) : manager_scope.
Open Scope manager_scope.

Definition get : M Manager := fun m => (m, m).

Definition log (e : event) : M unit := fun m =>
  (tt, {| env_path := env_path m; _initialized := _initialized m;
          installed_packages := installed_packages m; clock := clock m;
          trace := trace m ++ [e] |}).

(** One call to the outside: read the oracle at the clock, advance the clock. *)
Definition ask {A} (answer : nat -> A) : M A := fun m =>
  (answer (clock m),
   {| env_path := env_path m; _initialized := _initialized m;
      installed_packages := installed_packages m; clock := S (clock m);
      trace := trace m |}).

Definition set_initialized (b : bool) : M unit := fun m =>
  (tt, {| env_path := env_path m; _initialized := b;
          installed_packages := installed_packages m; clock := clock m;
          trace := trace m |}).

Definition set_installed (s : gset string) : M unit := fun m =>
  (tt, {| env_path := env_path m; _initialized := _initialized m;
          installed_packages := s; clock := clock m; trace := trace m |}).

Definition set_env_path (p : string) : M unit := fun m =>
  (tt, {| env_path := p; _initialized := _initialized m;
          installed_packages := installed_packages m; clock := clock m;
          trace := trace m |}).

Section OnMachine.

Variable W : Machine.

Definition _environment_exists : M bool := ask (environment_exists W).

Definition _create_environment : M bool :=
  conda <- ask (which_conda W) ;;
  if negb conda then ret false
  else
    log ev_conda_create ;;
    create_process <- ask (conda_create W) ;;
    match create_process with
    | None => ret false
    | Some create_process =>
        if negb (returncode create_process =? 0) then
          ret (Py.contains (stderr create_process) "already exists")
        else ret true
    end.

Definition _get_installed_packages : M (gset string) :=
  m <- get ;;
  if negb (_initialized m) then ret ∅
  else
    listed <- ask (pip_list W) ;;
    match listed with
    | None => ret (installed_packages m)
    | Some names =>
        let installed := installed_packages m ∪ list_to_set names in
        set_installed installed ;;
        ret installed
    end.

Definition ensure_environment : M bool :=
  m <- get ;;
  if _initialized m then ret true
  else
    there <- _environment_exists ;;
    created <- (if negb there then _create_environment else ret true) ;;
    if negb created then ret false
    else
      set_initialized true ;;
      installed <- _get_installed_packages ;;
      set_installed installed ;;
      ret true.

(** [_wipe_environment]; whether [shutil.rmtree] succeeds shows only in what
    the machine answers afterwards. *)
Definition _wipe_environment : M unit :=
  set_initialized false ;;
  set_installed ∅ ;;
  log ev_wipe.

Definition not_installed (currently_installed : gset string) (p : string) : bool :=
  negb (bool_decide (Py.lower p ∈ currently_installed)).

Definition final_error : string :=
  "Package installation failed after retry. Cannot proceed.".

Definition pip_error_of (pip_process : CompletedProcess) : string :=
  "Pip installation failed:" +:+ Py.nl +:+ stderr pip_process.

Definition full_error_of (conda_error : option string) (pip_error : string) : string :=
  if Py.truthy_opt_str conda_error
  then "Conda Error:" +:+ Py.nl +:+ Py.str_of_opt conda_error
       +:+ Py.nl +:+ Py.nl +:+ "Pip Error:" +:+ Py.nl +:+ pip_error
  else pip_error.

(** Step 1 of the hybrid strategy: conda installs what it can, when the
    environment is a conda one; the result is [conda_error]. *)
Definition conda_step (conda_packages : list string) : M (option string) :=
  is_conda_env <- ask (conda_meta_exists W) ;;
  if is_conda_env then
    conda_process <- ask (fun t => conda_install W t conda_packages) ;;
    log (ev_conda_install conda_packages (returncode conda_process)
           (stderr conda_process)) ;;
    ret (if negb (returncode conda_process =? 0)
         then Some (stderr conda_process) else None)
  else ret None.

(** One pass of the [for attempt in range(2)] body of [install_packages]:
    [Some r] is [return r], [None] is [continue]. *)
Definition install_attempt (attempt : Z) (packages system_packages : list string)
    : M (option (bool * option string)) :=
  log (ev_install_attempt attempt) ;;
  ready <- ensure_environment ;;
  if negb ready then
    if attempt =? 0 then _wipe_environment ;; ret None
    else ret (Some (false, Some "Failed to ensure environment is ready."))
  else
    let all_packages := packages ++ system_packages in
    match all_packages with
    | [] => ret (Some (true, None))
    | _ :: _ =>
        currently_installed <- _get_installed_packages ;;
        let needed_packages :=
          List.filter (not_installed currently_installed) all_packages in
        match needed_packages with
        | [] => ret (Some (true, None))
        | _ :: _ =>
            let conda_packages := needed_packages in
            conda_error <- conda_step conda_packages ;;
            currently_installed <- _get_installed_packages ;;
            let pip_packages :=
              List.filter (not_installed currently_installed) needed_packages in
            match pip_packages with
            | _ :: _ =>
                pip_process <- ask (fun t => pip_install W t pip_packages) ;;
                log (ev_pip_install pip_packages (returncode pip_process)
                       (stderr pip_process)) ;;
                if negb (returncode pip_process =? 0) then
                  let pip_error := pip_error_of pip_process in
                  let full_error := full_error_of conda_error pip_error in
                  if attempt =? 0 then _wipe_environment ;; ret None
                  else ret (Some (false, Some (final_error +:+ Py.nl +:+ full_error)))
                else
                  _get_installed_packages ;;
                  ret (Some (true, None))
            | [] =>
                _get_installed_packages ;;
                ret (Some (true, None))
            end
        end
    end.

(** [for attempt in attempts: ...], then the statement after the loop. *)
Fixpoint install_loop (attempts : list Z) (packages system_packages : list string)
    : M (bool * option string) :=
  match attempts with
  | [] => ret (false, Some "Exhausted package installation retries.")
  | attempt :: rest =>
      r <- install_attempt attempt packages system_packages ;;
      match r with
      | Some r => ret r
      | None => install_loop rest packages system_packages
      end
  end.

Definition install_packages (packages system_packages : list string)
    : M (bool * option string) :=
  install_loop [0; 1] packages system_packages.

(** *** [execute_code]: extraction, correction loop, runtime loop *)

(** [_extract_code_from_llm_output], on what the patterns found. *)
Definition _extract_code_from_llm_output (input : llm_text)
    (original_packages original_system_packages : list string)
    : string * list string * list string :=
  match json_block input with
  | Some data =>
      (default "" (jb_code data),
       default original_packages (jb_packages data),
       default original_system_packages (jb_system_packages data))
  | None =>
      let combined_packages :=
        Py.dedup_keep_first [] (original_packages ++ inline_packages input) in
      (cleaned_code input, combined_packages, original_system_packages)
  end.

(** The locals of the correction loop. *)
Record loop_state : Type := {
  current_code : string;
  current_packages : list string;
  current_system_packages : list string;
  fault_log : list string;
  package_failure_counts : gmap string Z;
  discarded_packages : list string * list string
}.

Definition max_package_failures : Z := 2.

(** [package_failure_counts.get(pkg, 0)] *)
Definition failures_of (counts : gmap string Z) (pkg : string) : Z :=
  default 0 (counts !! pkg).

(** [for pkg in pkgs: counts[pkg] = counts.get(pkg, 0) + 1] *)
Definition count_failures (counts : gmap string Z) (pkgs : list string)
    : gmap string Z :=
  foldl (fun counts pkg => <[pkg := failures_of counts pkg + 1]> counts) counts pkgs.

(** [counts.get(pkg, 0) >= max_package_failures] *)
Definition too_often (counts : gmap string Z) (pkg : string) : bool :=
  failures_of counts pkg >=? max_package_failures.

(** [[pkg for pkg in pkgs if counts.get(pkg, 0) >= max_package_failures]] *)
Definition to_discard (counts : gmap string Z) (pkgs : list string) : list string :=
  List.filter (too_often counts) pkgs.

(** [l.remove(x)]: the first occurrence goes. *)
Fixpoint remove_first (x : string) (l : list string) : list string :=
  match l with
  | [] => []
  | y :: tl => if String.eqb y x then tl else y :: remove_first x tl
  end.

(** [for pkg in discard: if pkg in current: current.remove(pkg); discarded.append(pkg)] *)
Definition discard_from (discard : list string) (current discarded : list string)
    : list string * list string :=
  foldl (fun '(current, discarded) pkg =>
           if bool_decide (pkg ∈ current)
           then (remove_first pkg current, discarded ++ [pkg])
           else (current, discarded))
        (current, discarded) discard.

Definition attempt_tag (attempt : Z) : string :=
  "[Attempt " +:+ Py.str_of_int (attempt + 1) +:+ "] ".

(** The [if not package_success:] block of the loop body. *)
Definition on_package_failure (attempt : Z) (package_error : option string)
    (st : loop_state) : loop_state :=
  let all_current_packages := current_packages st ++ current_system_packages st in
  let counts := count_failures (package_failure_counts st) all_current_packages in
  let package_error_msg :=
    attempt_tag attempt +:+ "Package installation failed. Error: "
    +:+ Py.str_of_opt package_error in
  let log1 := fault_log st ++ [package_error_msg] in
  let packages_to_discard := to_discard counts (current_packages st) in
  let system_packages_to_discard := to_discard counts (current_system_packages st) in
  match packages_to_discard, system_packages_to_discard with
  | [], [] =>
      {| current_code := current_code st;
         current_packages := current_packages st;
         current_system_packages := current_system_packages st;
         fault_log := log1;
         package_failure_counts := counts;
         discarded_packages := discarded_packages st |}
  | _, _ =>
      let '(packages', discarded_p) :=
        discard_from packages_to_discard (current_packages st)
          (fst (discarded_packages st)) in
      let '(system_packages', discarded_s) :=
        discard_from system_packages_to_discard (current_system_packages st)
          (snd (discarded_packages st)) in
      let discard_msg :=
        attempt_tag attempt +:+ "Discarded persistently failing packages - Regular: "
        +:+ Py.repr_str_list packages_to_discard +:+ ", System: "
        +:+ Py.repr_str_list system_packages_to_discard in
      {| current_code := current_code st;
         current_packages := packages';
         current_system_packages := system_packages';
         fault_log := log1 ++ [discard_msg];
         package_failure_counts := counts;
         discarded_packages := (discarded_p, discarded_s) |}
  end.

Definition add_fault (msg : string) (st : loop_state) : loop_state :=
  {| current_code := current_code st;
     current_packages := current_packages st;
     current_system_packages := current_system_packages st;
     fault_log := fault_log st ++ [msg];
     package_failure_counts := package_failure_counts st;
     discarded_packages := discarded_packages st |}.

Definition with_code (code : string) (st : loop_state) : loop_state :=
  {| current_code := code;
     current_packages := current_packages st;
     current_system_packages := current_system_packages st;
     fault_log := fault_log st;
     package_failure_counts := package_failure_counts st;
     discarded_packages := discarded_packages st |}.

Definition with_packages (packages system_packages : list string) (st : loop_state)
    : loop_state :=
  {| current_code := current_code st;
     current_packages := packages;
     current_system_packages := system_packages;
     fault_log := fault_log st;
     package_failure_counts := package_failure_counts st;
     discarded_packages := discarded_packages st |}.

(** The end of the loop body: what the model's answer changes. *)
Definition apply_correction (attempt : Z) (corrected_response : llm_text)
    (st : loop_state) : loop_state :=
  let '(corrected_code, new_packages, new_system_packages) :=
    _extract_code_from_llm_output corrected_response
      (current_packages st) (current_system_packages st) in
  if negb (String.eqb corrected_code "") then
    add_fault (attempt_tag attempt +:+ "Applied LLM correction - updated code and packages")
      (with_packages new_packages new_system_packages (with_code corrected_code st))
  else
    match raw_python_block corrected_response with
    | Some code =>
        add_fault
          (attempt_tag attempt +:+ "Applied partial LLM correction - updated code only")
          (with_code (Py.strip code) st)
    | None =>
        add_fault
          (attempt_tag attempt +:+ "LLM correction failed - could not extract valid response")
          st
    end.

(** How one pass of the correction loop ends. *)
Inductive pass_result : Type :=
| Prepared (st : loop_state)
| ReturnError (error : string)
| NextAttempt (st : loop_state).

Definition prepare_error (package_success syntax_success : bool)
    (package_error syntax_error : option string) (log : list string) : string :=
  let error_parts :=
    (if negb package_success
     then ["package installation failed: " +:+ Py.str_of_opt package_error] else [])
    ++ (if negb syntax_success
        then ["syntax error: " +:+ Py.str_of_opt syntax_error] else []) in
  "Failed to prepare code after " +:+ Py.str_of_int MAX_RETRIES +:+ " attempts: "
  +:+ Py.join ", " error_parts +:+ Py.nl +:+ Py.nl +:+ "Full error history:" +:+ Py.nl
  +:+ Py.join Py.nl log.

(** The [fault_log] and discard bookkeeping of one pass. *)
Definition record_faults (attempt : Z) (package_success : bool)
    (package_error syntax_error : option string) (st : loop_state) : loop_state :=
  let st := if negb package_success
            then on_package_failure attempt package_error st else st in
  match syntax_error with
  | Some _ =>
      add_fault (attempt_tag attempt +:+ "Syntax error: " +:+ Py.str_of_opt syntax_error) st
  | None => st
  end.

(** The loop body from the syntax check on; [installed] is what
    [install_packages] returned in this pass. *)
Definition after_install (function_name : option string) (attempt : Z)
    (installed : bool * option string) (st : loop_state) : M pass_result :=
  let package_success := fst installed in
  let package_error := snd installed in
  let syntax_error := py_compile W (current_code st) in
  let syntax_success := match syntax_error with None => true | Some _ => false end in
  let st := record_faults attempt package_success package_error syntax_error st in
  if package_success && syntax_success then
    match function_name with
    | Some f =>
        loader <- ask (fun t => make_loader W t f (current_code st)) ;;
        match loader with
        | inr loader_code => ret (Prepared (with_code loader_code st))
        | inl e => ret (ReturnError ("Failed to create function loader script: " +:+ e))
        end
    | None => ret (Prepared st)
    end
  else if attempt =? MAX_RETRIES - 1 then
    ret (ReturnError (prepare_error package_success syntax_success
                        package_error syntax_error (fault_log st)))
  else
    corrected_response <- ask (correction_llm W) ;;
    ret (NextAttempt (apply_correction attempt corrected_response st)).

(** The body of [for attempt in range(max_retries)]. *)
Definition correction_pass (function_name : option string) (attempt : Z)
    (st : loop_state) : M pass_result :=
  log (ev_attempt attempt (current_packages st) (current_system_packages st)) ;;
  installed <- install_packages (current_packages st) (current_system_packages st) ;;
  after_install function_name attempt installed st.

(** [for attempt in attempts: ...]; the loop always leaves by [break] or
    [return] on its last pass, [None] stands for falling out of it. *)
Fixpoint correction_loop (function_name : option string) (attempts : list Z)
    (st : loop_state) : M (option (string + loop_state)) :=
  match attempts with
  | [] => ret None
  | attempt :: rest =>
      r <- correction_pass function_name attempt st ;;
      match r with
      | Prepared st => ret (Some (inr st))
      | ReturnError e => ret (Some (inl e))
      | NextAttempt st => correction_loop function_name rest st
      end
  end.

(** [range(n)] *)
Definition range (n : Z) : list Z := Z.of_nat <$> seq 0 (Z.to_nat n).

(** [re.findall(r"No module named ['\"]([A-Za-z0-9_\.]+)['\"]", stderr)] *)
Definition is_quote (c : ascii) : bool :=
  let n := nat_of_ascii c in (n =? 39)%nat || (n =? 34)%nat.

Definition is_module_char (c : ascii) : bool :=
  let n := nat_of_ascii c in
  ((65 <=? n)%nat && (n <=? 90)%nat) || ((97 <=? n)%nat && (n <=? 122)%nat)
  || ((48 <=? n)%nat && (n <=? 57)%nat) || (n =? 95)%nat || (n =? 46)%nat.

Fixpoint span_module_chars (s : string) : string * string :=
  match s with
  | String c tl =>
      if is_module_char c
      then let '(name, rest) := span_module_chars tl in (String c name, rest)
      else (EmptyString, s)
  | EmptyString => (EmptyString, EmptyString)
  end.

Fixpoint drop_chars (n : nat) (s : string) : string :=
  match n, s with
  | S k, String _ tl => drop_chars k tl
  | _, _ => s
  end.

Definition no_module_named : string := "No module named ".

(** A match of the pattern at the head of [s]: the group and the length of
    the whole match. *)
Definition match_missing_module (s : string) : option (string * nat) :=
  if String.prefix no_module_named s then
    match drop_chars (String.length no_module_named) s with
    | String q after_quote =>
        if is_quote q then
          let '(name, rest) := span_module_chars after_quote in
          match name, rest with
          | String _ _, String q' _ =>
              if is_quote q'
              then Some (name, (String.length no_module_named + 2 + String.length name)%nat)
              else None
          | _, _ => None
          end
        else None
    | EmptyString => None
    end
  else None.

(** Left to right, matches do not overlap: [skip] characters of the last
    match are still to be passed. *)
Fixpoint findall_missing_modules (skip : nat) (s : string) : list string :=
  match s with
  | EmptyString => []
  | String _ tl =>
      match skip with
      | S k => findall_missing_modules k tl
      | O =>
          match match_missing_module s with
          | Some (name, n) => name :: findall_missing_modules (n - 1) tl
          | None => findall_missing_modules 0 tl
          end
      end
  end.

(** [m.split('.')[0]] *)
Fixpoint first_component (m : string) : string :=
  match m with
  | EmptyString => EmptyString
  | String c tl =>
      if Ascii.eqb c "."%char then EmptyString else String c (first_component tl)
  end.

Definition missing_packages (stderr_text : string) : list string :=
  first_component <$> findall_missing_modules 0 stderr_text.

Definition MAX_RUNTIME_RETRIES : Z := 2.

(** The tuple [install_packages] returns, as the value the [if] tests. *)
Definition install_result_value (r : bool * option string) : Py.pyval :=
  Py.PyTuple [Py.PyBool (fst r);
              match snd r with Some e => Py.PyStr e | None => Py.PyNone end].

(** [for p in missing_pkgs: if p not in current_packages: current_packages.append(p)] *)
Definition track_packages (current_packages missing_pkgs : list string) : list string :=
  foldl (fun current p =>
           if bool_decide (p ∈ current) then current else current ++ [p])
        current_packages missing_pkgs.

(** [while runtime_attempt <= MAX_RUNTIME_RETRIES: ...], with [fuel] passes
    allowed.  The result is the last [exec_process] and the package list;
    [None] when the fuel runs out (or the loop ends before any run). *)
Fixpoint runtime_loop (fuel : nat) (runtime_attempt : Z) (code : string)
    (current_packages : list string) (last : option CompletedProcess)
    : M (option (CompletedProcess * list string)) :=
  match fuel with
  | O => ret None
  | S fuel =>
      if runtime_attempt <=? MAX_RUNTIME_RETRIES then
        log (ev_run runtime_attempt) ;;
        outcome <- ask (fun t => run_script W t code) ;;
        match outcome with
        | RunRaised e =>
            ret (Some ({| returncode := 1; stdout := ""; stderr := e |},
                       current_packages))
        | Ran exec_process =>
            if returncode exec_process =? 0 then
              ret (Some (exec_process, current_packages))
            else
              let missing_pkgs := missing_packages (stderr exec_process) in
              if match missing_pkgs with [] => false | _ :: _ => true end
                 && (runtime_attempt <? MAX_RUNTIME_RETRIES)
              then
                install_success <- install_packages missing_pkgs [] ;;
                if Py.truthy (install_result_value install_success) then
                  runtime_loop fuel (runtime_attempt + 1) code
                    (track_packages current_packages missing_pkgs)
                    (Some exec_process)
                else
                  log ev_abort_runtime_install ;;
                  ret (Some (exec_process, current_packages))
              else ret (Some (exec_process, current_packages))
        end
      else
        ret (match last with
             | Some exec_process => Some (exec_process, current_packages)
             | None => None
             end)
  end.

(** [LocalRunnerResponse] *)
Record LocalRunnerResponse : Type := {
  output : option string;
  error : option string;
  packages : list string;
  execution_results : list string;
  return_value : option string
}.

Definition error_response (e : string) : LocalRunnerResponse :=
  {| output := None; error := Some e; packages := []; execution_results := [];
     return_value := None |}.

(** [execute_code]; [isolated] is [Some tool_name] when [use_isolated_env]
    is set and a tool is named.  [None] when the loops have no result. *)
Definition execute_code (base_dir : string) (code : llm_text)
    (packages system_packages : list string) (function_name : option string)
    (isolated : option string) : M (option LocalRunnerResponse) :=
  m0 <- get ;;
  let original_env_path := env_path m0 in
  (match isolated with
   | Some tool_name =>
       set_env_path (base_dir +:+ "/.prisma/envs/" +:+
                     Py.map_chars (fun c => if Ascii.eqb c "/"%char then "_"%char else c)
                       tool_name) ;;
       set_initialized false ;;
       set_installed ∅
   | None => ret tt
   end) ;;
  let '(executable_code, packages, system_packages) :=
    _extract_code_from_llm_output code packages system_packages in
  if String.eqb executable_code "" then
    ret (Some (error_response "No executable code found in the input."))
  else
    let st0 :=
      {| current_code := executable_code;
         current_packages := packages;
         current_system_packages := system_packages;
         fault_log := [];
         package_failure_counts := ∅;
         discarded_packages := ([], []) |} in
    prepared <- correction_loop function_name (range MAX_RETRIES) st0 ;;
    match prepared with
    | None => ret None
    | Some (inl e) => ret (Some (error_response e))
    | Some (inr st) =>
        ran <- runtime_loop 3 0 (current_code st) (current_packages st) None ;;
        match ran with
        | None => ret None
        | Some (exec_process, current_packages) =>
            (match isolated with
             | Some _ => set_env_path original_env_path
             | None => ret tt
             end) ;;
            let ok := returncode exec_process =? 0 in
            ret (Some
              {| output := Some (stdout exec_process);
                 error := if ok then None else Some (stderr exec_process);
                 packages := current_packages ++ current_system_packages st;
                 execution_results := [stdout exec_process];
                 return_value :=
                   match function_name with
                   | Some _ => if ok then Some (Py.strip (stdout exec_process)) else None
                   | None => None
                   end |})
        end
    end.

End OnMachine.

(** What [ensure_environment] does to the machine when it starts in [m]:
    nothing when the manager is initialized or the environment exists, and
    a [conda create] when it does not exist and conda is found. *)
Definition ensure_events (W : Machine) (m : Manager) : list event :=
  if _initialized m then []
  else if environment_exists W (clock m) then []
  else if which_conda W (S (clock m)) then [ev_conda_create]
  else [].

(** *** Reading a trace *)

Definition is_wipe (e : event) : bool :=
  match e with ev_wipe => true | _ => false end.

(** How often the environment was wiped. *)
Definition wipes (evs : list event) : nat := length (List.filter is_wipe evs).

Definition is_failed_pip (e : event) : bool :=
  match e with ev_pip_install _ rc _ => negb (rc =? 0) | _ => false end.

(** A [pip install] of the trace failed. *)
Definition pip_failed (evs : list event) : bool := existsb is_failed_pip evs.

(** The passes of the install loop, in order. *)
Definition install_attempts (evs : list event) : list Z :=
  omap (fun e => match e with ev_install_attempt a => Some a | _ => None end) evs.

(** The events [install_packages] leaves. *)
Definition is_install_event (e : event) : bool :=
  match e with
  | ev_wipe | ev_conda_create | ev_conda_install _ _ _ | ev_pip_install _ _ _
  | ev_install_attempt _ => true
  | _ => false
  end.

(** The package lists the correction loop tried to install, pass by pass. *)
Definition attempted_lists (evs : list event) : list (list string * list string) :=
  omap (fun e => match e with ev_attempt _ p s => Some (p, s) | _ => None end) evs.

(** What [ensure_environment] leaves in the trace. *)
Inductive ensure_shape : list event -> Prop :=
| ensure_quiet : ensure_shape []
| ensure_creates : ensure_shape [ev_conda_create].

(** What the conda step of a pass leaves, and the [conda_error] it sets. *)
Inductive conda_shape : list event -> option string -> Prop :=
| conda_not_run : conda_shape [] None
| conda_run pkgs rc err :
    conda_shape [ev_conda_install pkgs rc err]
      (if negb (rc =? 0) then Some err else None).

(** The ways one pass of the install loop can go: its events and its
    outcome ([None] for [continue]). *)
Inductive attempt_shape (attempt : Z)
    : list event -> option (bool * option string) -> Prop :=
| not_ready_wipe pre :
    ensure_shape pre -> attempt = 0 ->
    attempt_shape attempt (ev_install_attempt attempt :: pre ++ [ev_wipe]) None
| not_ready_stop pre :
    ensure_shape pre -> attempt <> 0 ->
    attempt_shape attempt (ev_install_attempt attempt :: pre)
      (Some (false, Some "Failed to ensure environment is ready."))
| nothing_needed pre :
    ensure_shape pre ->
    attempt_shape attempt (ev_install_attempt attempt :: pre) (Some (true, None))
| conda_enough pre c conda_error :
    ensure_shape pre -> conda_shape c conda_error ->
    attempt_shape attempt (ev_install_attempt attempt :: pre ++ c) (Some (true, None))
| pip_ok pre c conda_error pkgs err :
    ensure_shape pre -> conda_shape c conda_error ->
    attempt_shape attempt
      (ev_install_attempt attempt :: pre ++ c ++ [ev_pip_install pkgs 0 err])
      (Some (true, None))
| pip_failed_wipe pre c conda_error pkgs rc err :
    ensure_shape pre -> conda_shape c conda_error -> rc <> 0 -> attempt = 0 ->
    attempt_shape attempt
      (ev_install_attempt attempt :: pre ++ c ++ [ev_pip_install pkgs rc err; ev_wipe])
      None
| pip_failed_stop pre c conda_error pkgs rc err :
    ensure_shape pre -> conda_shape c conda_error -> rc <> 0 -> attempt <> 0 ->
    attempt_shape attempt
      (ev_install_attempt attempt :: pre ++ c ++ [ev_pip_install pkgs rc err])
      (Some (false,
             Some (final_error +:+ Py.nl +:+
                   full_error_of conda_error
                     ("Pip installation failed:" +:+ Py.nl +:+ err)))).

Definition is_conda_install (e : event) : bool :=
  match e with ev_conda_install _ _ _ => true | _ => false end.

Definition is_install_command (e : event) : bool :=
  match e with
  | ev_conda_install _ _ _ | ev_pip_install _ _ _ => true
  | _ => false
  end.

(** The conda and pip installations of a trace. *)
Definition install_commands (evs : list event) : list event :=
  List.filter is_install_command evs.

(** How often conda was asked to create the environment. *)
Definition creations (evs : list event) : nat :=
  length (List.filter (fun e => match e with ev_conda_create => true | _ => false end) evs).

(** [conda_error] as the events of one pass determine it: the error text of
    the pass's conda installation, when there was one and it failed. *)
Definition conda_error_of (evs : list event) : option string :=
  match List.find is_conda_install evs with
  | Some (ev_conda_install _ rc err) => if negb (rc =? 0) then Some err else None
  | _ => None
  end.

(** How a failed retry pass reports, [evs] being the events of that pass:
    the environment could not be made ready and no installation was run, or
    pip failed last and the message is made of its error text and of the
    pass's own [conda_error]. *)
Definition failure_report (evs : list event) (msg : option string) : Prop :=
  (msg = Some "Failed to ensure environment is ready." /\ install_commands evs = [])
  \/ exists pkgs rc err,
       rc <> 0
       /\ last evs = Some (ev_pip_install pkgs rc err)
       /\ msg = Some (final_error +:+ Py.nl +:+
                      full_error_of (conda_error_of evs)
                        ("Pip installation failed:" +:+ Py.nl +:+ err)).

(** The model's answer names package [p] among those to install. *)
Definition names_package (response : llm_text) (p : string) : Prop :=
  match json_block response with
  | Some data =>
      p ∈ default [] (jb_packages data) \/ p ∈ default [] (jb_system_packages data)
  | None => p ∈ inline_packages response
  end.

End EnvManager.

(** ** Sample inputs, for running the model *)

Module Samples.

Import Workflow.
Import EnvManager.

(** Stand-ins for the two library functions, to run the cache on examples:
    the dump lists the keys, the digest is the text itself. *)
Definition sample_dumps (d : Py.dict) : string := Py.join "," (fst <$> d).
Definition sample_digest (s : string) : string := s.

(** A platform that writes line feeds as they are and UTF-8 by default. *)
Definition posix_linesep : string := String Cache.lf EmptyString.
Definition utf8_default (s : string) : Cache.cache_file := Cache.TextFile s.

(** A result with a carriage return in it. *)
Definition two_lines_cr : string :=
  String "a" (String Cache.cr (String "b" EmptyString)).
Definition two_lines_lf : string :=
  String "a" (String Cache.lf (String "b" EmptyString)).

(** The argument dicts [{"k": 0}], [{"k": 1}], ... *)
Definition numbered (n : nat) : Py.dict := [("k", Py.JInt (Z.of_nat n))].

(** A [json.loads] that rejects every text. *)
Definition no_json (s : string) : loads_outcome := JSONDecodeError.

(** The state of a run whose one subtask was answered from the cache. *)
Definition answered : AgentState :=
  set_final_answer (Some "68")
    (set_subtask_results (Some ["68"])
       (set_subtasks (Some [fallback_subtask "compute 17 * 4"])
          (create_default_agent_state "compute 17 * 4"))).

(** A language model that always writes the same code. *)
Definition same_code (requirements : string) (references : option string) : string :=
  "def multiply(a, b): return a * b".

Definition new_tool : Resolver.resolution :=
  {| Resolver.action := "create_new_tool"; Resolver.data := Resolver.NoData |}.

Definition cache_hit : Resolver.resolution :=
  {| Resolver.action := "use_cache"; Resolver.data := Resolver.CachedText "68" |}.

Definition multiply_tool : brainstorm_outcome :=
  BrainstormTool "{ }" "multiply" "Multiply two numbers" "{ }" "{ }" None.

Definition fresh_manager : Manager :=
  {| env_path := ".prisma/PrismaRunEnv"; _initialized := false;
     installed_packages := ∅; clock := 0; trace := [] |}.

Definition conda_fails : CompletedProcess :=
  {| returncode := 1; stdout := "";
     stderr := "PackagesNotFoundError: nonexistent-pkg-xyz" |}.

Definition pip_fails : CompletedProcess :=
  {| returncode := 1; stdout := "";
     stderr := "ERROR: No matching distribution found for nonexistent-pkg-xyz" |}.

Definition succeeds : CompletedProcess :=
  {| returncode := 0; stdout := ""; stderr := "" |}.

Definition no_text : llm_text :=
  {| json_block := None; cleaned_code := ""; inline_packages := [];
     raw_python_block := None |}.

(** A machine on which neither conda nor pip can install anything, and the
    environment, once wiped, cannot be created again. *)
Definition nothing_installs : Machine :=
  {| environment_exists := fun t => (t <? 7)%nat;
     which_conda := fun _ => true;
     conda_create := fun _ =>
       Some {| returncode := 1; stdout := ""; stderr := "No space left on device" |};
     pip_list := fun _ => Some [];
     conda_meta_exists := fun _ => true;
     conda_install := fun _ _ => conda_fails;
     pip_install := fun _ _ => pip_fails;
     py_compile := fun _ => None;
     make_loader := fun _ _ code => inr code;
     correction_llm := fun _ => no_text;
     run_script := fun _ _ => Ran succeeds |}.

(** A machine on which conda fails in the first pass and reports success,
    without installing, in the retry; pip fails in both. *)
Definition conda_quiet_on_retry : Machine :=
  {| environment_exists := fun _ => true;
     which_conda := fun _ => true;
     conda_create := fun _ => Some succeeds;
     pip_list := fun _ => Some [];
     conda_meta_exists := fun _ => true;
     conda_install := fun t _ => if (t <? 7)%nat then conda_fails else succeeds;
     pip_install := fun _ _ => pip_fails;
     py_compile := fun _ => None;
     make_loader := fun _ _ code => inr code;
     correction_llm := fun _ => no_text;
     run_script := fun _ _ => Ran succeeds |}.

Definition print_one : string := "print(1)".

(** The model corrects the code and says nothing about packages. *)
Definition code_only : llm_text :=
  {| json_block :=
       Some {| jb_code := Some print_one; jb_packages := None;
               jb_system_packages := None |};
     cleaned_code := ""; inline_packages := []; raw_python_block := None |}.

(** The model declares the failing package again in every correction. *)
Definition same_package_again : llm_text :=
  {| json_block :=
       Some {| jb_code := Some print_one;
               jb_packages := Some ["nonexistent-pkg-xyz"];
               jb_system_packages := None |};
     cleaned_code := ""; inline_packages := []; raw_python_block := None |}.

(** Machines on which pip cannot install the package (the environment is
    no conda one), with the two models. *)
Definition pip_never_installs (llm : llm_text) : Machine :=
  {| environment_exists := fun _ => true;
     which_conda := fun _ => true;
     conda_create := fun _ => Some succeeds;
     pip_list := fun _ => Some [];
     conda_meta_exists := fun _ => false;
     conda_install := fun _ _ => succeeds;
     pip_install := fun _ _ => pip_fails;
     py_compile := fun _ => None;
     make_loader := fun _ _ code => inr code;
     correction_llm := fun _ => llm;
     run_script := fun _ _ => Ran succeeds |}.

Definition user_code : llm_text :=
  {| json_block := None; cleaned_code := "import nonexistent_pkg_xyz";
     inline_packages := []; raw_python_block := None |}.

Definition start : loop_state :=
  {| current_code := "import nonexistent_pkg_xyz";
     current_packages := ["nonexistent-pkg-xyz"];
     current_system_packages := [];
     fault_log := [];
     package_failure_counts := ∅;
     discarded_packages := ([], []) |}.

(** A run that stops on a missing module. *)
Definition missing_requests : CompletedProcess :=
  {| returncode := 1; stdout := "";
     stderr := "ModuleNotFoundError: No module named 'requests'" |}.

(** The first run misses a module, pip cannot install it, later runs pass. *)
Definition module_missing : Machine :=
  {| environment_exists := fun _ => true;
     which_conda := fun _ => true;
     conda_create := fun _ => Some succeeds;
     pip_list := fun _ => Some [];
     conda_meta_exists := fun _ => false;
     conda_install := fun _ _ => succeeds;
     pip_install := fun _ _ => pip_fails;
     py_compile := fun _ => None;
     make_loader := fun _ _ code => inr code;
     correction_llm := fun _ => no_text;
     run_script := fun t _ => if (t =? 0)%nat then Ran missing_requests else Ran succeeds |}.

Definition message_of (r : (bool * option string) * Manager) : string :=
  default "" (snd (fst r)).

End Samples.

(** * Facts *)

(** ** Strings *)

Module PyFacts.

Lemma length_app (a b : string) :
  String.length (a +:+ b) = (String.length a + String.length b)%nat.
Proof. induction a as [|c a IH]; simpl; [done | by rewrite IH]. Qed.

(** Appending the same suffix is injective. *)
Lemma app_inj_suffix (a b s : string) : a +:+ s = b +:+ s -> a = b.
Proof.
  revert b. induction a as [|c a IH]; intros [|c' b] H.
  - done.
  - change (s = String c' (b +:+ s)) in H.
    apply (f_equal String.length) in H. cbn in H. rewrite (length_app b s) in H. lia.
  - change (String c (a +:+ s) = s) in H.
    apply (f_equal String.length) in H. cbn in H. rewrite (length_app a s) in H. lia.
  - change (String c (a +:+ s) = String c' (b +:+ s)) in H.
    injection H as -> H. f_equal. by apply IH.
Qed.

Lemma startswith_app (p s : string) : Py.startswith (p +:+ s) p = true.
Proof.
  unfold Py.startswith. induction p as [|c p IH]; simpl.
  - by destruct s.
  - destruct (ascii_dec c c); [done | congruence].
Qed.

Lemma eqb_empty_false (s : string) : s <> "" -> String.eqb s "" = false.
Proof. intros H. by apply String.eqb_neq. Qed.

Lemma app_assoc (a b c : string) : (a +:+ b) +:+ c = a +:+ b +:+ c.
Proof.
  induction a as [|x a IH]; [done|].
  change (String x ((a +:+ b) +:+ c) = String x (a +:+ b +:+ c)). by rewrite IH.
Qed.

Lemma app_empty_r (a : string) : a +:+ "" = a.
Proof.
  induction a as [|x a IH]; [done|].
  change (String x (a +:+ "") = String x a). by rewrite IH.
Qed.

Lemma occurs_in_app_r (sub a s : string) : Py.occurs_in sub s -> Py.occurs_in sub (a +:+ s).
Proof. intros (x & y & ->). exists (a +:+ x), y. by rewrite app_assoc. Qed.

Lemma occurs_in_prefix (sub s : string) : Py.occurs_in sub (sub +:+ s).
Proof. by exists "", s. Qed.

Lemma occurs_in_refl (s : string) : Py.occurs_in s s.
Proof. exists "", "". by rewrite app_empty_r. Qed.

End PyFacts.

(** ** The result cache *)

Module CacheFacts.

Import Cache.

(** *** Text mode *)

Lemma text_mode_output_posix (s : string) :
  text_mode_output (String lf EmptyString) s = s.
Proof.
  induction s as [|c s IH]; [done|]. simpl.
  destruct (Ascii.eqb c lf) eqn:E.
  - apply Ascii.eqb_eq in E as ->. change (String lf (text_mode_output (String lf "") s) = String lf s).
    by rewrite IH.
  - by rewrite IH.
Qed.

(** A text without carriage returns comes back as it was written, on either
    kind of platform. *)
Lemma text_mode_round_trip (linesep s : string) :
  linesep = String lf EmptyString \/ linesep = String cr (String lf EmptyString) ->
  has_cr s = false ->
  universal_newlines (text_mode_output linesep s) = s.
Proof.
  intros Hsep. induction s as [|c s IH]; [done|]. simpl.
  intros [Hc Hs]%orb_false_elim. specialize (IH Hs).
  destruct (Ascii.eqb c lf) eqn:E.
  - apply Ascii.eqb_eq in E as ->. destruct Hsep as [-> | ->].
    + change (universal_newlines (String lf (text_mode_output (String lf "") s))
              = String lf s).
      simpl. by rewrite IH.
    + change (universal_newlines
                (String cr (String lf (text_mode_output (String cr (String lf "")) s)))
              = String lf s).
      simpl. by rewrite IH.
  - simpl. rewrite Hc. by rewrite IH.
Qed.

(** *** Counting keys *)

Lemma all_ascii_spec (c : ascii) : c ∈ all_ascii.
Proof.
  unfold all_ascii. rewrite <- (ascii_nat_embedding c).
  apply list_elem_of_fmap_2. apply elem_of_seq. pose proof (nat_ascii_bounded c). lia.
Qed.

Lemma strings_upto_spec (n : nat) (s : string) :
  (String.length s <= n)%nat -> s ∈ strings_upto n.
Proof.
  revert s. induction n as [|n IH]; intros [|c s] H;
    cbn [strings_upto String.length] in *; try lia.
  - apply list_elem_of_here.
  - apply list_elem_of_here.
  - apply elem_of_cons. right. apply list_elem_of_bind. exists c.
    split; [|apply all_ascii_spec]. apply list_elem_of_fmap_2. apply IH. lia.
Qed.

Lemma substring_length (n : nat) (s : string) :
  (String.length (String.substring 0 n s) <= n)%nat.
Proof.
  revert s. induction n as [|n IH]; intros [|c s]; simpl; try lia.
  specialize (IH s). lia.
Qed.

(** No function from the numbers to the texts of at most 16 characters
    tells all numbers apart. *)
Lemma short_keys_collide (f : nat -> string) :
  (forall n, (String.length (f n) <= 16)%nat) ->
  ~ (forall n m, n <> m -> f n <> f m).
Proof.
  intros Hlen Hinj.
  pose proof (strings_upto_spec 16) as Hall.
  generalize dependent (strings_upto 16). intros L Hall.
  set (l := f <$> seq 0 (S (length L))).
  assert (Hnd : NoDup l).
  { apply NoDup_fmap_2_strong; [|apply NoDup_seq].
    intros n m _ _ Heq. destruct (decide (n = m)) as [|Hne]; [done|].
    by destruct (Hinj n m Hne). }
  assert (Hsub : l ⊆+ L).
  { apply NoDup_submseteq; [exact Hnd|]. intros x (n & -> & _)%list_elem_of_fmap.
    apply Hall, Hlen. }
  apply submseteq_length in Hsub. unfold l in Hsub.
  rewrite length_fmap, length_seq in Hsub. lia.
Qed.

Section WithLibraries.

Variable json_dumps_sort_keys : Py.dict -> string.
Variable sha256_hexdigest : string -> string.
Variable os_linesep : string.
Variable in_default_encoding : string -> cache_file.

Abbreviation hash := (_signature_hash json_dumps_sort_keys sha256_hexdigest).
Abbreviation read := (get_cached_output json_dumps_sort_keys sha256_hexdigest).
Abbreviation write :=
  (_cache_result json_dumps_sort_keys sha256_hexdigest os_linesep in_default_encoding).
Abbreviation written := (written_file os_linesep in_default_encoding).
Abbreviation key := (fun a : Py.dict => Py.take 16 (sha256_hexdigest (json_dumps_sort_keys a))).

Lemma or_empty_idem sig : or_empty (Some (or_empty sig)) = or_empty sig.
Proof. destruct sig as [[|kv d]|]; reflexivity. Qed.

Lemma or_empty_dict (args : Py.dict) : or_empty (Some args) = args.
Proof. destruct args; reflexivity. Qed.

(** The read side hashes the argument dict it is given, canonically dumped. *)
Lemma read_hash (sig : option Py.dict) :
  hash (Some (or_empty sig))
  = Py.take 16 (sha256_hexdigest (json_dumps_sort_keys (or_empty sig))).
Proof. unfold _signature_hash. by rewrite or_empty_idem. Qed.

Lemma cache_path_inj tool_name h h' :
  cache_path tool_name h = cache_path tool_name h' -> h = h'.
Proof. unfold cache_path. intros [= H]. by apply PyFacts.app_inj_suffix in H. Qed.

(** The read side looks at the file the write side names. *)
Lemma read_nonempty_tool (fs : store) tool_name (args : Py.dict) :
  tool_name <> "" ->
  read fs tool_name (Some args) = read_file (fs !! cache_path tool_name (key args)).
Proof.
  intros H. unfold get_cached_output. rewrite (PyFacts.eqb_empty_false _ H).
  by rewrite read_hash, or_empty_dict.
Qed.

Lemma write_lookup (fs : store) tool_name (args : Py.dict) result outcome :
  write fs tool_name args result outcome !! cache_path tool_name (key args)
  = match outcome with
    | Written => Some (written result)
    | WriteRaised leaves => leaves
    end.
Proof.
  unfold _cache_result. destruct outcome.
  - apply lookup_insert_eq.
  - apply lookup_partial_alter_eq.
Qed.

Lemma write_lookup_ne (fs : store) tool_name (args : Py.dict) result outcome p :
  p <> cache_path tool_name (key args) ->
  write fs tool_name args result outcome !! p = fs !! p.
Proof.
  intros H. unfold _cache_result. destruct outcome.
  - by apply lookup_insert_ne.
  - by apply lookup_partial_alter_ne.
Qed.

(** A series of writes leaves alone the files whose key none of them has. *)
Lemma cache_after_lookup tool_name writes (args' : Py.dict) :
  (forall w, w ∈ writes -> key (fst (fst w)) <> key args') ->
  cache_after json_dumps_sort_keys sha256_hexdigest os_linesep in_default_encoding
    tool_name writes !! cache_path tool_name (key args') = None.
Proof.
  unfold cache_after. induction writes as [|[[a r] o] ws IH] using rev_ind; intros H.
  - apply lookup_empty.
  - rewrite foldl_app. cbn [foldl]. rewrite write_lookup_ne.
    + apply IH. intros w Hw. apply H. set_solver.
    + intros Heq%cache_path_inj. apply (H (a, r, o)); [set_solver | done].
Qed.

(** C6, as amended.  For a non-empty tool name both sides use the file named
    by the first 16 characters of the SHA-256 hex digest of the sorted-keys
    JSON of the arguments, in the tool's directory, and a write touches no
    other file.  A write that runs through leaves the result as text mode
    writes it, and a read with the same pair returns a result of ASCII
    characters with its line ends translated: the result itself when it has
    no carriage return.  A write that raises is swallowed, and the read
    returns what the failure left.  A read for arguments with another key is
    not changed by the write, and in a cache filled by writes none of which
    had the key of the arguments read, the read returns the cache-miss
    sentinel. *)
Theorem cache_round_trip (fs : store) (tool_name : string) (args args' : Py.dict)
    (result : string) (outcome : write_outcome)
    (writes : list (Py.dict * string * write_outcome)) :
  tool_name <> "" ->
  let file a := cache_path tool_name (key a) in
  let fs' := write fs tool_name args result outcome in
  (forall (any : store) a, read any tool_name (Some a) = read_file (any !! file a))
  /\ (forall p, p <> file args -> fs' !! p = fs !! p)
  /\ (outcome = Written ->
      fs' !! file args = Some (written result)
      /\ (is_ascii result = true ->
          read fs' tool_name (Some args)
          = universal_newlines (text_mode_output os_linesep result))
      /\ (is_ascii result = true -> has_cr result = false ->
          os_linesep = String lf EmptyString
          \/ os_linesep = String cr (String lf EmptyString) ->
          read fs' tool_name (Some args) = result))
  /\ (forall leaves, outcome = WriteRaised leaves ->
      fs' !! file args = leaves
      /\ read fs' tool_name (Some args) = read_file leaves)
  /\ (key args' <> key args ->
      read fs' tool_name (Some args') = read fs tool_name (Some args'))
  /\ ((forall w, w ∈ writes -> key (fst (fst w)) <> key args') ->
      read (cache_after json_dumps_sort_keys sha256_hexdigest os_linesep
              in_default_encoding tool_name writes)
        tool_name (Some args') = CacheMiss).
Proof.
  intros Hname file fs'.
  split; [intros any a; by apply read_nonempty_tool|].
  split; [intros p Hp; by apply write_lookup_ne|].
  split; [|split; [|split]].
  - intros ->.
    assert (Hfile : fs' !! file args = Some (written result))
      by apply write_lookup.
    assert (Hread : is_ascii result = true ->
                    read fs' tool_name (Some args)
                    = universal_newlines (text_mode_output os_linesep result)).
    { intros Hascii. rewrite (read_nonempty_tool _ _ _ Hname). fold (file args).
      rewrite Hfile. unfold written_file. by rewrite Hascii. }
    split; [exact Hfile|]. split; [exact Hread|].
    intros Hascii Hcr Hsep. rewrite (Hread Hascii).
    by apply text_mode_round_trip.
  - intros leaves ->.
    assert (Hfile : fs' !! file args = leaves) by apply write_lookup.
    split; [exact Hfile|].
    rewrite (read_nonempty_tool _ _ _ Hname). fold (file args). by rewrite Hfile.
  - intros Hkey. rewrite !(read_nonempty_tool _ _ _ Hname). f_equal.
    apply write_lookup_ne. intros Heq%cache_path_inj. done.
  - intros Hfresh. rewrite (read_nonempty_tool _ _ _ Hname).
    by rewrite cache_after_lookup.
Qed.

(** C10.  A lookup without an argument signature is a lookup with the empty
    dict: both are canonicalized to [{}] before hashing, so they hash alike
    and read the same file. *)
Theorem absent_signature_is_empty_dict (fs : store) (tool_name : string) :
  or_empty None = or_empty (Some [])
  /\ hash None = hash (Some [])
  /\ read fs tool_name None = read fs tool_name (Some []).
Proof.
  split; [reflexivity|]. split.
  - unfold _signature_hash. reflexivity.
  - unfold get_cached_output. destruct (String.eqb tool_name ""); [done|].
    change (or_empty (Some [])) with (or_empty None). reflexivity.
Qed.

End WithLibraries.

Lemma cache_round_trip_witness :
  let args := [("a", Py.JInt 17); ("b", Py.JInt 4)] in
  let write fs :=
    _cache_result Samples.sample_dumps Samples.sample_digest Samples.posix_linesep
      Samples.utf8_default fs "multiply" args "68" Written in
  get_cached_output Samples.sample_dumps Samples.sample_digest (write ∅)
    "multiply" (Some args) = "68"
  /\ get_cached_output Samples.sample_dumps Samples.sample_digest
       (cache_after Samples.sample_dumps Samples.sample_digest Samples.posix_linesep
          Samples.utf8_default "multiply" [(args, "68", Written)])
       "multiply" (Some [("a", Py.JInt 2)]) = CacheMiss.
Proof.
  intros args write.
  pose proof (cache_round_trip Samples.sample_dumps Samples.sample_digest
                Samples.posix_linesep Samples.utf8_default ∅ "multiply"
                args [("a", Py.JInt 2)] "68" Written [(args, "68", Written)]) as H.
  destruct H as (_ & _ & Hwritten & _ & _ & Hother); [done|].
  destruct (Hwritten eq_refl) as (_ & _ & Hsame).
  split.
  - apply Hsame; [reflexivity | reflexivity | by left].
  - apply Hother. intros w ->%list_elem_of_singleton. by vm_compute.
Defined.

(** C6 as stated fails, whatever the two library functions and the platform
    are: for the empty tool name the write side stores the file and the read
    side refuses the name; a carriage return in the result is read back as
    a line feed; and a write that raises is swallowed, so that the read
    finds nothing.  The part on other arguments fails too: the key has at
    most 16 characters, so with a serializer that tells the dicts
    [{"k": 0}], [{"k": 1}], ... apart no digest keeps a read for other
    arguments from finding what was written. *)
Lemma cache_round_trip_has_exceptions :
  ~ (exists dumps digest linesep encoding,
       get_cached_output dumps digest
         (_cache_result dumps digest linesep encoding ∅ "" [] "68" Written)
         "" (Some []) = "68")
  /\ ~ (exists dumps digest linesep encoding,
          get_cached_output dumps digest
            (_cache_result dumps digest linesep encoding ∅ "multiply" []
               Samples.two_lines_cr Written)
            "multiply" (Some []) = Samples.two_lines_cr)
  /\ ~ (exists dumps digest linesep encoding,
          get_cached_output dumps digest
            (_cache_result dumps digest linesep encoding ∅ "multiply" [] "68"
               (WriteRaised None))
            "multiply" (Some []) = "68")
  /\ ~ (exists dumps digest linesep encoding,
          (forall n m, n <> m -> dumps (Samples.numbered n) <> dumps (Samples.numbered m))
          /\ forall args args',
               dumps args <> dumps args' ->
               get_cached_output dumps digest
                 (_cache_result dumps digest linesep encoding ∅ "multiply" args "68"
                    Written)
                 "multiply" (Some args') = CacheMiss).
Proof.
  split; [|split; [|split]].
  - intros (dumps & digest & linesep & encoding & H). vm_compute in H. discriminate H.
  - intros (dumps & digest & linesep & encoding & H).
    rewrite read_nonempty_tool, write_lookup in H by done.
    vm_compute in H. discriminate H.
  - intros (dumps & digest & linesep & encoding & H).
    rewrite read_nonempty_tool, write_lookup in H by done.
    vm_compute in H. discriminate H.
  - intros (dumps & digest & linesep & encoding & Hdumps & Hmiss).
    apply (short_keys_collide
             (fun n => Py.take 16 (digest (dumps (Samples.numbered n))))).
    + intros n. apply substring_length.
    + intros n m Hne Hkey.
      specialize (Hmiss (Samples.numbered n) (Samples.numbered m) (Hdumps n m Hne)).
      rewrite read_nonempty_tool in Hmiss by done.
      rewrite <- Hkey, write_lookup in Hmiss.
      vm_compute in Hmiss. discriminate Hmiss.
Qed.

End CacheFacts.


(** ** The capability resolver *)

Module ResolverFacts.

Import Resolver.

Section WithLibraries.

Variable json_dumps_sort_keys : Py.dict -> string.
Variable sha256_hexdigest : string -> string.

Abbreviation resolve := (resolve_capability json_dumps_sort_keys sha256_hexdigest).
Abbreviation resolver_lookup :=
  (Resolver.resolver_lookup json_dumps_sort_keys sha256_hexdigest).

Lemma resolve_on_hit fs matches q args :
  lookup_misses (resolver_lookup fs q args) = false ->
  resolve fs matches q args
  = {| action := "use_cache"; data := CachedText (resolver_lookup fs q args) |}.
Proof.
  unfold lookup_misses, resolve_capability, Resolver.resolver_lookup.
  intros [H1 H2]%orb_false_elim. by rewrite H1, H2.
Qed.

Lemma resolve_on_miss fs matches q args :
  lookup_misses (resolver_lookup fs q args) = true ->
  resolve fs matches q args
  = match matches with
    | tool :: _ => {| action := "use_mcp"; data := ToolMeta tool |}
    | [] => {| action := "create_new_tool"; data := NoData |}
    end.
Proof.
  unfold lookup_misses, resolve_capability, Resolver.resolver_lookup.
  intros H. destruct (Py.startswith _ "[CacheMiss]"); simpl in *; [done|].
  by rewrite H.
Qed.

(** The resolver's three actions. *)
Lemma resolve_action_cases fs matches q args :
  action (resolve fs matches q args) ∈ ["use_cache"; "use_mcp"; "create_new_tool"].
Proof.
  destruct (lookup_misses (resolver_lookup fs q args)) eqn:H.
  - rewrite (resolve_on_miss _ _ _ _ H). destruct matches; simpl; set_solver.
  - rewrite (resolve_on_hit _ _ _ _ H). simpl. set_solver.
Qed.

(** C7, as amended.  When the cache lookup misses and the registry yields no
    match, the resolver returns the action [create_new_tool] with no payload;
    the workflow's routing maps that action (as any action it does not know)
    to the [create] branch, which leads to [brainstorm]; and the resolver's
    action is always one of [use_cache], [use_mcp], [create_new_tool]. *)
Theorem resolve_without_cache_or_tool (fs : Cache.store) (registry : list tool_record)
    (decision : option llm_decision) (capability_query : string)
    (tool_args : option Py.dict) (state : Workflow.AgentState) :
  lookup_misses (resolver_lookup fs capability_query tool_args) = true ->
  query_mcp_registry registry decision = [] ->
  let r := resolve fs (query_mcp_registry registry decision) capability_query tool_args in
  r = {| action := "create_new_tool"; data := NoData |}
  /\ (exists state',
        Workflow.resolve_node r state = Some state'
        /\ Workflow.resolve_action state' = Some "create_new_tool"
        /\ Workflow.decide_resolution state' = "create"
        /\ Workflow.next_node Workflow.n_resolve state' = Some Workflow.n_brainstorm)
  /\ (forall matches,
        action (resolve fs matches capability_query tool_args)
        ∈ ["use_cache"; "use_mcp"; "create_new_tool"]).
Proof.
  intros Hmiss Hnone r.
  assert (Hr : r = {| action := "create_new_tool"; data := NoData |}).
  { subst r. rewrite (resolve_on_miss _ _ _ _ Hmiss). by rewrite Hnone. }
  split; [exact Hr|]. split.
  - rewrite Hr. eexists. split; [reflexivity|]. by repeat split.
  - intros matches. apply resolve_action_cases.
Qed.

End WithLibraries.

Lemma resolve_without_cache_or_tool_witness :
  resolve_capability Samples.sample_dumps Samples.sample_digest ∅
    (query_mcp_registry [] None) "compute 17 * 4" None
  = {| action := "create_new_tool"; data := NoData |}.
Proof.
  apply (resolve_without_cache_or_tool Samples.sample_dumps Samples.sample_digest
           ∅ [] None "compute 17 * 4" None
           (Workflow.create_default_agent_state "compute 17 * 4")).
  - by vm_compute.
  - reflexivity.
Defined.

(** C7 as stated fails: with an empty cache and an empty registry the action
    is not [create], whatever the two library functions are. *)
Lemma resolver_action_is_not_create :
  ~ (exists dumps digest,
       action (resolve_capability dumps digest ∅ (query_mcp_registry [] None)
                 "compute 17 * 4" None) = "create").
Proof. intros (dumps & digest & H). vm_compute in H. discriminate H. Qed.

End ResolverFacts.

(** ** The workflow *)

Module WorkflowFacts.

Import Workflow.

(** Unfolds the node that is run in [H] and splits on what it tests. *)
Ltac run_cases H :=
  match type of H with
  | run_node _ ?n ?x _ = Some _ =>
      destruct n, x; simpl in H; try discriminate H
  end;
  unfold plan_node, maybe_request_user_input_node, next_subtask_node, resolve_node,
    brainstorm_node, research_node, generate_node, validate_node, register_node,
    prepare_args_node, execute_node, finish_node, review_node, fail_node,
    add_messages in H;
  repeat case_match; simplify_eq; cbn.

Section WithJson.

Variable json_loads : string -> loads_outcome.

(** Only [validate] moves the generation-retry counter, by one. *)
Lemma run_node_retry_count n x s s' :
  run_node json_loads n x s = Some s' ->
  generation_retry_count s' =
  generation_retry_count s + match n with n_validate => 1 | _ => 0 end.
Proof. intros H. run_cases H; lia. Qed.

Lemma validate_counts_every_attempt result state :
  generation_retry_count (validate_node result state)
  = generation_retry_count state + 1.
Proof. reflexivity. Qed.

Lemma retry_edge_needs_budget s :
  next_node n_validate s = Some n_generate -> generation_retry_count s < MAX_RETRIES.
Proof.
  unfold next_node, decide_validation.
  destruct (validation_passed s); [discriminate|].
  destruct (generation_retry_count s <? MAX_RETRIES) eqn:E; [lia | discriminate].
Qed.

(** The loop-backs of a run never outnumber the validation attempts, and
    stay below [MAX_RETRIES]. *)
Lemma loop_backs_bounded query history :
  run json_loads query history ->
  match history with
  | (_, s) :: _ =>
      Z.of_nat (loop_backs history) <= generation_retry_count s
      /\ Z.of_nat (loop_backs history) <= MAX_RETRIES - 1
  | [] => False
  end.
Proof.
  induction 1 as [|[n s] [n' s'] history Hrun IH Hstep].
  - simpl. unfold MAX_RETRIES. lia.
  - inversion Hstep as [? x ? ? ? Hnode Hnext]; subst.
    pose proof (run_node_retry_count _ _ _ _ Hnode) as Hcount.
    destruct IH as [IH1 IH2]. unfold MAX_RETRIES in *.
    change (loop_backs ((n', s') :: (n, s) :: history))
      with (match n, n' with
            | n_validate, n_generate => S (loop_backs ((n, s) :: history))
            | _, _ => loop_backs ((n, s) :: history)
            end).
    destruct n; try (split; lia).
    destruct n'; try (split; lia).
    apply retry_edge_needs_budget in Hnext. unfold MAX_RETRIES in Hnext.
    simpl in Hcount. split; lia.
Qed.

Lemma feedback_in_requirements state error :
  validation_error state = Some error -> error <> "" ->
  In ("Fix this error: " +:+ error) (generate_requirements state).
Proof.
  intros H Hne. unfold generate_requirements. rewrite H. simpl.
  rewrite (PyFacts.eqb_empty_false _ Hne). simpl. auto 10.
Qed.

Lemma error_result_nonempty result :
  Py.startswith result "[Error]" = true -> result <> "".
Proof. intros H ->. discriminate H. Qed.

(** C1, as amended.  [validate] adds one to the generation-retry counter on
    every attempt, before the routing reads it.  After a failed validation
    the error is kept and reaches the next generation as a "Fix this error"
    requirement; the workflow loops back to [generate] when the counter,
    this attempt included, is below [MAX_RETRIES] (3) and routes to [fail]
    otherwise.  So a run loops back from [validate] to [generate] at most
    [MAX_RETRIES - 1] (2) times. *)
Theorem validation_retry_limit (query : string) (history : list (Node * AgentState))
    (n : Node) (state : AgentState) (result : string) :
  run json_loads query ((n, state) :: history) ->
  Py.startswith result "[Error]" = true ->
  let state' := validate_node result state in
  (forall r, generation_retry_count (validate_node r state)
             = generation_retry_count state + 1)
  /\ validation_passed state' = false
  /\ validation_error state' = Some result
  /\ In ("Fix this error: " +:+ result) (generate_requirements state')
  /\ (generation_retry_count state + 1 < MAX_RETRIES ->
      next_node n_validate state' = Some n_generate)
  /\ (MAX_RETRIES <= generation_retry_count state + 1 ->
      next_node n_validate state' = Some n_fail)
  /\ (loop_backs ((n, state) :: history) <= Z.to_nat (MAX_RETRIES - 1))%nat.
Proof.
  intros Hrun Herr state'.
  assert (Hpassed : validation_passed state' = false).
  { subst state'. unfold validate_node. cbn. by rewrite Herr. }
  assert (Hkept : validation_error state' = Some result).
  { subst state'. unfold validate_node. cbn. by rewrite Herr. }
  split; [intros r; apply validate_counts_every_attempt|].
  split; [exact Hpassed|]. split; [exact Hkept|].
  split; [apply feedback_in_requirements; [exact Hkept | by apply error_result_nonempty]|].
  split; [|split].
  - intros Hlt. unfold next_node, decide_validation. rewrite Hpassed.
    subst state'. rewrite validate_counts_every_attempt.
    destruct (_ <? _) eqn:E; [reflexivity | lia].
  - intros Hge. unfold next_node, decide_validation. rewrite Hpassed.
    subst state'. rewrite validate_counts_every_attempt.
    destruct (_ <? _) eqn:E; [lia | reflexivity].
  - pose proof (loop_backs_bounded _ _ Hrun) as [_ H]. unfold MAX_RETRIES in *. lia.
Qed.

(** *** Review *)

Lemma detect_finish_unparsable content :
  unparsable json_loads content = true ->
  exists review,
    detect_finish json_loads content = Some review
    /\ Py.dict_get review "finish" = Some (Py.JBool false).
Proof.
  unfold unparsable, detect_finish.
  destruct (search_braces (Py.strip content)) as [json_string|]; [|by eexists].
  destruct (json_loads json_string) as [result| |]; [|by eexists|discriminate].
  intros ->. by eexists.
Qed.

(** [detect_finish] raises exactly when [json.loads] raises something it
    does not catch. *)
Lemma detect_finish_raises content :
  detect_finish json_loads content = None <-> loads_raises json_loads content = true.
Proof.
  unfold loads_raises, detect_finish.
  destruct (search_braces (Py.strip content)) as [json_string|]; [|done].
  destruct (json_loads json_string) as [result| |]; try done.
  by destruct (malformed result).
Qed.

(** A verdict that parses decides the review. *)
Lemma detect_finish_parsable content :
  unparsable json_loads content = false ->
  loads_raises json_loads content = false ->
  exists json_string result b,
    search_braces (Py.strip content) = Some json_string
    /\ json_loads json_string = Loaded result
    /\ Py.dict_get result "finish" = Some (Py.JBool b)
    /\ detect_finish json_loads content = Some result.
Proof.
  unfold unparsable, loads_raises, detect_finish.
  destruct (search_braces (Py.strip content)) as [json_string|]; [|discriminate].
  destruct (json_loads json_string) as [result| |] eqn:Hloads; try discriminate.
  intros H _. rewrite H. exists json_string, result.
  unfold malformed in H. apply orb_false_elim in H as [_ H].
  apply negb_false_iff in H. unfold is_bool in H.
  destruct (Py.dict_get result "finish") as [[| b | | | |]|]; try discriminate H.
  exists b. repeat split. exact Hloads.
Qed.

(** C2, as amended.  When the reviewing model's answer does not parse into
    the finish/reason verdict (no JSON object in it, one [json.loads]
    rejects as no JSON, or one without a boolean [finish] and a [reason]),
    [detect_finish] reports [finish = false] and the review of an answer is
    not passed: the review-retry counter goes up by one and the workflow
    returns to [plan], or goes to [fail] at the third failed review in a
    row.  The review is passed by default only when the call raises: when
    the model call fails, when [json.loads] raises something other than
    [JSONDecodeError], or when there is no final answer to hand to the tool;
    then the counter is reset and the workflow ends. *)
Theorem review_of_unparsable_verdict (state : AgentState) (answer content : string) :
  final_answer state = Some answer ->
  unparsable json_loads content = true ->
  let state' := review_node json_loads (LLMContent content) state in
  let raised := review_node json_loads LLMRaised state in
  review_passed state' = false
  /\ review_retry_count state' = review_retry_count state + 1
  /\ next_node n_review state'
     = Some (if review_retry_count state + 1 >=? 3 then n_fail else n_plan)
  /\ review_passed raised = true
  /\ review_retry_count raised = 0
  /\ next_node n_review raised = Some n_END
  /\ (forall content',
        loads_raises json_loads content' = true ->
        let accepted := review_node json_loads (LLMContent content') state in
        review_passed accepted = true
        /\ review_retry_count accepted = 0
        /\ next_node n_review accepted = Some n_END)
  /\ (forall reply unanswered,
        final_answer unanswered = None ->
        let accepted := review_node json_loads reply unanswered in
        review_passed accepted = true
        /\ review_retry_count accepted = 0
        /\ next_node n_review accepted = Some n_END).
Proof.
  intros Hanswer H state' raised.
  destruct (detect_finish_unparsable _ H) as (review & Hreview & Hfinish).
  assert (Hp : review_passed state' = false).
  { subst state'. unfold review_node. cbn. by rewrite Hanswer, Hreview, Hfinish. }
  assert (Hc : review_retry_count state' = review_retry_count state + 1).
  { subst state'. unfold review_node. cbn. by rewrite Hanswer, Hreview, Hfinish. }
  split; [exact Hp|]. split; [exact Hc|]. split; [|split; [|split; [|split; [|split]]]].
  - unfold next_node, decide_review. rewrite Hp, Hc.
    by destruct (review_retry_count state + 1 >=? 3).
  - subst raised. unfold review_node. cbn. by rewrite Hanswer.
  - subst raised. unfold review_node. cbn. by rewrite Hanswer.
  - subst raised. unfold review_node, next_node, decide_review. cbn. by rewrite Hanswer.
  - intros content' Hraises%detect_finish_raises.
    unfold review_node, next_node, decide_review. cbn. by rewrite Hanswer, Hraises.
  - intros reply unanswered Hnone.
    unfold review_node, next_node, decide_review. cbn. by rewrite Hnone.
Qed.

(** *** Planning and finishing *)

Lemma plan_node_spec llm state state' :
  plan_node llm state = Some state' ->
  current_subtask_idx state' = 0
  /\ subtask_results state' = Some []
  /\ exists first rest,
       subtasks state' = Some (first :: rest)
       /\ capability_query first = Some (active_query state').
Proof.
  unfold plan_node. intros H.
  destruct (all_dicts _) as [[|first rest]|]; try discriminate H.
  destruct (capability_query first) as [q|] eqn:Hq; [|discriminate H].
  injection H as <-. cbn. eauto 10.
Qed.

(** The fallback plan, one subtask that is the query itself, never raises. *)
Lemma plan_node_fallback state :
  exists state', plan_node PlanNone state = Some state'.
Proof. unfold plan_node. simpl. eauto. Qed.

Lemma plan_progress llm state state' :
  plan_node llm state = Some state' -> progress_ok state'.
Proof.
  intros H. destruct (plan_node_spec _ _ _ H) as (Hidx & Hres & first & rest & Hsub & _).
  exists (first :: rest), []. rewrite Hidx.
  repeat split; try done; unfold Py.len; simpl; lia.
Qed.

Lemma len_insert {A} (l : list A) i x : Py.len (<[i := x]> l) = Py.len l.
Proof. unfold Py.len. by rewrite length_insert. Qed.

(** Outside [plan], no node drops the plan or the results, or moves the index
    out of the plan. *)
Lemma run_node_progress n x s s' :
  n <> n_plan -> progress_ok s ->
  run_node json_loads n x s = Some s' -> progress_ok s'.
Proof.
  intros Hn (subs & results & Hsubs & Hres & Hidx) H.
  unfold progress_ok.
  run_cases H; try congruence;
    (eexists _, _; split; [first [reflexivity | eassumption]|];
     split; [first [reflexivity | eassumption]|];
     rewrite ?len_insert; unfold Py.len in *; simpl in *; lia).
Qed.

Lemma run_progress query n s history :
  run json_loads query ((n, s) :: history) -> n = n_plan \/ progress_ok s.
Proof.
  remember ((n, s) :: history) as h eqn:Hh. intros Hrun.
  revert n s history Hh.
  induction Hrun as [|[n0 s0] [n1 s1] history0 Hrun IH Hstep]; intros n s history Hh.
  - injection Hh as <- <- <-. by left.
  - injection Hh as -> -> <-. right.
    inversion Hstep as [? x ? ? ? Hnode Hnext]; subst.
    destruct (IH _ _ _ eq_refl) as [-> | Hok].
    + destruct x; simpl in Hnode; try discriminate Hnode.
      by apply plan_progress in Hnode.
    + destruct n0; try (eapply run_node_progress; [|exact Hok|exact Hnode]; discriminate).
      destruct x; simpl in Hnode; try discriminate Hnode.
      by apply plan_progress in Hnode.
Qed.

Lemma finish_node_spec state subs results :
  subtasks state = Some subs -> subtask_results state = Some results ->
  exists state',
    finish_node state = Some state'
    /\ subtasks state' = Some subs
    /\ current_subtask_idx state'
       = (if current_subtask_idx state + 1 <? Py.len subs
          then current_subtask_idx state + 1 else current_subtask_idx state)
    /\ has_more_subtasks state' = (current_subtask_idx state + 1 <? Py.len subs)
    /\ current_subtask_failure_count state' = 0.
Proof.
  intros Hsubs Hres. unfold finish_node. rewrite Hsubs, Hres.
  destruct (Py.startswith _ "[Error]"), (Py.len results >? 1),
    (current_subtask_idx state + 1 <? Py.len subs);
    eexists; (split; [reflexivity|]); cbn; by rewrite ?Hsubs.
Qed.

(** C5.  In every run, a [finish] transition leaves the subtask index where
    it was (on the last subtask) or moves it up by one (when more subtasks
    remain), keeps it below the number of subtasks, and sets the per-subtask
    failure counter to zero; [finish] does not raise there. *)
Theorem finish_keeps_index_in_plan (query : string) (state : AgentState) :
  reachable json_loads query (n_finish, state) ->
  exists subs state',
    subtasks state = Some subs
    /\ finish_node state = Some state'
    /\ subtasks state' = Some subs
    /\ (current_subtask_idx state + 1 < Py.len subs ->
        current_subtask_idx state' = current_subtask_idx state + 1)
    /\ (Py.len subs <= current_subtask_idx state + 1 ->
        current_subtask_idx state' = current_subtask_idx state)
    /\ current_subtask_idx state <= current_subtask_idx state'
    /\ current_subtask_idx state' <= Py.len subs
    /\ current_subtask_failure_count state' = 0.
Proof.
  intros [history Hrun].
  destruct (run_progress _ _ _ _ Hrun) as [? | (subs & results & Hsubs & Hres & Hidx)];
    [discriminate|].
  destruct (finish_node_spec _ _ _ Hsubs Hres) as (state' & Hf & Hs & Hi & _ & Hc).
  exists subs, state'. rewrite Hi.
  destruct (current_subtask_idx state + 1 <? Py.len subs) eqn:E;
    repeat split; try done; lia.
Qed.

(** C9.  Whatever the state [plan] runs in, the state it leaves has subtask
    index 0 and an empty list of subtask results, and the active query is the
    one of the first subtask of the new plan; so a failed review that loops
    back to [plan] starts over from the first subtask with no results. *)
Theorem plan_resets_progress (llm : planner_json) (state state' : AgentState) :
  plan_node llm state = Some state' ->
  current_subtask_idx state' = 0
  /\ subtask_results state' = Some []
  /\ (exists first rest,
        subtasks state' = Some (first :: rest)
        /\ capability_query first = Some (active_query state'))
  /\ next_node n_plan state' = Some n_maybe_request_user_input
  /\ (forall reply s,
        review_passed (review_node json_loads reply s) = false ->
        review_retry_count (review_node json_loads reply s) < 3 ->
        next_node n_review (review_node json_loads reply s) = Some n_plan).
Proof.
  intros H. destruct (plan_node_spec _ _ _ H) as (Hidx & Hres & Hfirst).
  repeat split; try done.
  intros reply s Hp Hc. unfold next_node, decide_review. rewrite Hp.
  destruct (_ >=? 3) eqn:E; [lia | reflexivity].
Qed.

End WithJson.

End WorkflowFacts.

(** ** The environment manager *)

Module EnvManagerFacts.

Import EnvManager.

Lemma bind_run {A B} (c : M A) (k : A -> M B) (m : Manager) :
  bind c k m = k (fst (c m)) (snd (c m)).
Proof. unfold bind. by destruct (c m). Qed.

Lemma wipe_trace m : trace (snd (_wipe_environment m)) = trace m ++ [ev_wipe].
Proof. reflexivity. Qed.

(** Reduces the monad's plumbing, and nothing of the program. *)
Ltac mred :=
  cbn [fst snd ret ask log get set_initialized set_installed trace clock negb].
Ltac mred_in H :=
  cbn [fst snd ret ask log get set_initialized set_installed trace clock negb]
    in H |- *.

(** Rewrites the trace of the state reached into the events added to the
    trace of the state the pass started from. *)
Ltac trace_back :=
  rewrite ?bind_run; mred; rewrite ?wipe_trace;
  repeat match goal with
         | T : trace _ = _ |- _ => rewrite T; clear T
         end;
  repeat (progress (simpl; rewrite <- ?app_assoc)); try reflexivity.

Section OnMachine.

Variable W : Machine.

Lemma get_installed_trace m : trace (snd (_get_installed_packages W m)) = trace m.
Proof.
  unfold _get_installed_packages, bind, get, ret, ask, set_installed.
  destruct (_initialized m); simpl; [|reflexivity].
  by destruct (pip_list W (clock m)).
Qed.

Lemma ensure_environment_trace m :
  exists pre, ensure_shape pre
              /\ trace (snd (ensure_environment W m)) = trace m ++ pre.
Proof.
  unfold ensure_environment, _environment_exists, _create_environment,
    _get_installed_packages, bind, get, ret, ask, log, set_installed, set_initialized.
  simpl. repeat case_match; simplify_eq; simpl;
    first [ exists []; split; [constructor | rewrite app_nil_r; reflexivity]
          | exists [ev_conda_create]; split; [constructor | reflexivity] ].
Qed.

(** What [ensure_environment] adds to the trace, read off the machine. *)
Lemma ensure_environment_events m :
  trace (snd (ensure_environment W m)) = trace m ++ ensure_events W m
  /\ ensure_shape (ensure_events W m).
Proof.
  unfold ensure_events, ensure_environment, _environment_exists, _create_environment,
    _get_installed_packages, bind, get, ret, ask, log, set_installed, set_initialized.
  simpl. destruct (_initialized m); simpl;
    [rewrite app_nil_r; split; [reflexivity | constructor]|].
  destruct (environment_exists W (clock m)); simpl.
  { destruct (pip_list W (S (clock m))); simpl; rewrite app_nil_r;
      split; first [reflexivity | constructor]. }
  destruct (which_conda W (S (clock m))); simpl;
    [|rewrite app_nil_r; split; [reflexivity | constructor]].
  repeat case_match; simplify_eq; simpl; split; first [reflexivity | constructor].
Qed.

Lemma conda_step_trace pkgs m :
  exists c, conda_shape c (fst (conda_step W pkgs m))
            /\ trace (snd (conda_step W pkgs m)) = trace m ++ c.
Proof.
  unfold conda_step, bind, ret, ask, log. simpl.
  destruct (conda_meta_exists W (clock m)); simpl.
  - eexists. split; [apply conda_run | reflexivity].
  - exists []. split; [constructor | by rewrite app_nil_r].
Qed.

Lemma creations_app evs evs' :
  creations (evs ++ evs') = (creations evs + creations evs')%nat.
Proof. unfold creations. by rewrite List.filter_app, length_app. Qed.

Lemma conda_shape_creations c conda_error :
  conda_shape c conda_error -> creations c = 0%nat.
Proof. by destruct 1. Qed.

(** One pass of the install loop goes one of the seven ways of
    [attempt_shape]: it logs its number, makes the environment ready, and
    then what it adds has no creation of the environment in it.  A pass
    that does not return leaves the manager wiped. *)
Lemma install_attempt_events attempt pk sp m :
  exists rest,
    trace (snd (install_attempt W attempt pk sp m))
    = trace m ++ ev_install_attempt attempt :: ensure_events W m ++ rest
    /\ attempt_shape attempt (ev_install_attempt attempt :: ensure_events W m ++ rest)
         (fst (install_attempt W attempt pk sp m))
    /\ creations rest = 0%nat
    /\ (fst (install_attempt W attempt pk sp m) = None ->
        _initialized (snd (install_attempt W attempt pk sp m)) = false
        /\ installed_packages (snd (install_attempt W attempt pk sp m)) = ∅).
Proof.
  unfold install_attempt. rewrite bind_run.
  set (m1 := snd (log (ev_install_attempt attempt) m)).
  assert (T1 : trace m1 = trace m ++ [ev_install_attempt attempt]) by reflexivity.
  assert (E1 : ensure_events W m1 = ensure_events W m) by reflexivity.
  destruct (ensure_environment_events m1) as (T2 & Hpre).
  rewrite E1 in T2, Hpre. clear E1. set (pre := ensure_events W m) in *.
  clearbody m1 pre. mred. rewrite bind_run.
  destruct (ensure_environment W m1) as [ready m2]. mred_in T2.
  destruct ready; mred.
  - destruct (pk ++ sp) as [|p0 rest]; mred.
    { exists []. rewrite app_nil_r.
      split; [trace_back|]. split; [by apply nothing_needed|]. by split. }
    set (all_packages := p0 :: rest). clearbody all_packages.
    rewrite bind_run. pose proof (get_installed_trace m2) as T3.
    destruct (_get_installed_packages W m2) as [inst m3]. mred_in T3.
    destruct (List.filter (not_installed inst) all_packages) as [|n0 needed]; mred.
    { exists []. rewrite app_nil_r.
      split; [trace_back|]. split; [by apply nothing_needed|]. by split. }
    set (needed_packages := n0 :: needed). clearbody needed_packages.
    rewrite bind_run.
    destruct (conda_step_trace needed_packages m3) as (c & Hc & T4).
    destruct (conda_step W needed_packages m3) as [conda_error m4].
    mred_in Hc. mred_in T4.
    pose proof (conda_shape_creations _ _ Hc) as Hcc.
    rewrite bind_run. pose proof (get_installed_trace m4) as T5.
    destruct (_get_installed_packages W m4) as [inst' m5]. mred_in T5.
    destruct (List.filter (not_installed inst') needed_packages) as [|q0 pips]; mred.
    { rewrite bind_run. pose proof (get_installed_trace m5) as T6.
      destruct (_get_installed_packages W m5) as [inst'' m6]. mred_in T6.
      exists c.
      split; [trace_back|]. split; [by eapply conda_enough|]. by split. }
    set (pip_packages := q0 :: pips). clearbody pip_packages.
    rewrite bind_run. mred. rewrite bind_run. mred.
    set (pip_process := pip_install W (clock m5) pip_packages).
    destruct (returncode pip_process =? 0) eqn:Erc; mred.
    + rewrite bind_run.
      match goal with
      | |- context [_get_installed_packages W ?m0] =>
          pose proof (get_installed_trace m0) as T6;
          destruct (_get_installed_packages W m0) as [inst'' m6]
      end.
      mred_in T6.
      exists (c ++ [ev_pip_install pip_packages 0 (stderr pip_process)]).
      apply Z.eqb_eq in Erc.
      split; [rewrite <- Erc; trace_back|]. split; [by eapply pip_ok|].
      split; [|done]. rewrite creations_app, Hcc. reflexivity.
    + apply Z.eqb_neq in Erc. destruct (attempt =? 0) eqn:E0; mred.
      * exists (c ++ [ev_pip_install pip_packages (returncode pip_process)
                        (stderr pip_process); ev_wipe]).
        split; [trace_back|]. split; [eapply pip_failed_wipe; eauto; lia|].
        split; [rewrite creations_app, Hcc; reflexivity|]. by split.
      * exists (c ++ [ev_pip_install pip_packages (returncode pip_process)
                        (stderr pip_process)]).
        split; [trace_back|]. split; [eapply pip_failed_stop; eauto; lia|].
        split; [rewrite creations_app, Hcc; reflexivity|]. done.
  - destruct (attempt =? 0) eqn:E0; mred.
    + exists [ev_wipe].
      split; [trace_back|]. split; [apply not_ready_wipe; [done | lia]|]. by split.
    + exists []. rewrite app_nil_r.
      split; [trace_back|]. split; [apply not_ready_stop; [done | lia]|]. by split.
Qed.

Lemma install_attempt_shape attempt pk sp m :
  exists evs,
    trace (snd (install_attempt W attempt pk sp m)) = trace m ++ evs
    /\ attempt_shape attempt evs (fst (install_attempt W attempt pk sp m)).
Proof.
  destruct (install_attempt_events attempt pk sp m) as (rest & T & S & _).
  by eexists.
Qed.

End OnMachine.

(** *** Reading the shapes *)

Ltac open_shapes :=
  repeat match goal with
         | H : ensure_shape _ |- _ => destruct H
         | H : conda_shape _ _ |- _ => destruct H
         end.

Lemma wipes_app evs evs' : wipes (evs ++ evs') = (wipes evs + wipes evs')%nat.
Proof. unfold wipes. by rewrite List.filter_app, length_app. Qed.

Lemma install_attempts_app evs evs' :
  install_attempts (evs ++ evs') = install_attempts evs ++ install_attempts evs'.
Proof. apply omap_app. Qed.

Lemma pip_failed_app evs evs' :
  pip_failed (evs ++ evs') = pip_failed evs || pip_failed evs'.
Proof. apply existsb_app. Qed.

Lemma pip_failed_last evs pkgs rc err :
  pip_failed (evs ++ [ev_pip_install pkgs rc err])
  = pip_failed evs || negb (rc =? 0).
Proof. rewrite pip_failed_app. simpl. by rewrite orb_false_r. Qed.

(** A first pass that returns has installed everything: nothing wiped, no
    failed [pip]. *)
Lemma first_pass_done evs r :
  attempt_shape 0 evs (Some r) ->
  r = (true, None) /\ wipes evs = 0%nat /\ install_attempts evs = [0]
  /\ pip_failed evs = false.
Proof.
  inversion 1; subst; try congruence; open_shapes; repeat split; reflexivity.
Qed.

(** A first pass that does not return has wiped the environment, once. *)
Lemma first_pass_retry evs :
  attempt_shape 0 evs None ->
  wipes evs = 1%nat /\ install_attempts evs = [0] /\ last evs = Some ev_wipe.
Proof. inversion 1; subst; open_shapes; repeat split; reflexivity. Qed.

Lemma pip_text_in_message conda_error err :
  Py.occurs_in err
    (final_error +:+ Py.nl +:+
     full_error_of conda_error ("Pip installation failed:" +:+ Py.nl +:+ err)).
Proof.
  do 2 apply PyFacts.occurs_in_app_r. unfold full_error_of.
  destruct (Py.truthy_opt_str conda_error).
  - do 9 apply PyFacts.occurs_in_app_r. apply PyFacts.occurs_in_refl.
  - do 2 apply PyFacts.occurs_in_app_r. apply PyFacts.occurs_in_refl.
Qed.

Lemma conda_text_in_message cerr pip_error :
  cerr <> "" ->
  Py.occurs_in cerr
    (final_error +:+ Py.nl +:+ full_error_of (Some cerr) pip_error).
Proof.
  intros H. do 2 apply PyFacts.occurs_in_app_r. unfold full_error_of.
  simpl. rewrite (PyFacts.eqb_empty_false _ H). simpl.
  do 2 apply PyFacts.occurs_in_app_r. apply PyFacts.occurs_in_prefix.
Qed.

Lemma last_cons_snoc {A} (x y : A) (l : list A) : last (x :: l ++ [y]) = Some y.
Proof. change (last ((x :: l) ++ [y]) = Some y). apply last_snoc. Qed.

(** The second pass always returns, and wipes nothing; when it fails, it
    reports as [failure_report] says, from its own events. *)
Lemma second_pass evs r :
  attempt_shape 1 evs r ->
  exists res,
    r = Some res /\ wipes evs = 0%nat /\ install_attempts evs = [1]
    /\ (pip_failed evs = true -> fst res = false)
    /\ (fst res = false -> failure_report evs (snd res))
    /\ (fst res = true -> snd res = None).
Proof.
  inversion 1 as [ | pre Hpre Ha | pre Hpre | pre c ce Hpre Hc
                 | pre c ce pkgs err Hpre Hc | | pre c ce pkgs rc err Hpre Hc Hrc Ha ];
    subst; try congruence; eexists; (split; [reflexivity|]).
  - destruct Hpre; repeat split; try done; intros _; by left.
  - destruct Hpre; repeat split; done.
  - destruct Hpre; destruct Hc as [|cp crc cerr]; repeat split; done.
  - destruct Hpre; destruct Hc as [|cp crc cerr]; repeat split; done.
  - split; [by destruct Hpre; destruct Hc|].
    split; [by destruct Hpre; destruct Hc|].
    split; [done|]. split; [|done].
    intros _. right. exists pkgs, rc, err.
    split; [done|]. split; [rewrite app_assoc; apply last_cons_snoc|].
    cbn [snd]. do 3 f_equal.
    destruct Hpre; destruct Hc as [|cp crc cerr]; reflexivity.
Qed.

Lemma attempt_shape_events attempt evs r :
  attempt_shape attempt evs r -> Forall (fun e => is_install_event e = true) evs.
Proof.
  inversion 1; subst; open_shapes; repeat constructor.
Qed.

Section OnMachine.

Variable W : Machine.

(** [install_packages] adds to the trace, and only events of its own. *)
Lemma install_packages_events (pk sp : list string) (m : Manager) :
  exists evs,
    trace (snd (install_packages W pk sp m)) = trace m ++ evs
    /\ Forall (fun e => is_install_event e = true) evs.
Proof.
  unfold install_packages, install_loop. rewrite bind_run.
  destruct (install_attempt_shape W 0 pk sp m) as (evs0 & T0 & S0%attempt_shape_events).
  destruct (install_attempt W 0 pk sp m) as [[r|] m1]; mred_in T0.
  - by exists evs0.
  - rewrite bind_run.
    destruct (install_attempt_shape W 1 pk sp m1) as (evs1 & T1 & S1%attempt_shape_events).
    assert (trace (snd (install_attempt W 1 pk sp m1)) = trace m ++ evs0 ++ evs1)
      as T by (rewrite T1, T0; by rewrite app_assoc).
    exists (evs0 ++ evs1). split; [|by apply Forall_app].
    by destruct (install_attempt W 1 pk sp m1) as [[r|] m2].
Qed.

(** C3, as amended.  Within one call of [install_packages] the environment
    is wiped at most once, and only by the first pass.  A first pass that
    returns has succeeded and ends the call.  A first pass in which [pip]
    fails does not return: it wipes the environment once, which leaves the
    manager uninitialized with no package recorded as installed, and the
    loop body is run once more, on that manager; its outcome is the call's.
    That retry wipes nothing and always returns.  It asks conda to create
    the environment again exactly when the environment does not exist any
    more and conda is found.  When it fails, either the environment could
    not be made ready and no installation was run, or [pip] failed again,
    last, and the message is the fixed sentence followed by pip's error
    text, with the error text of the retry's own conda installation before
    it when that failed with a non-empty text. *)
Theorem install_packages_wipes_once (pk sp : list string) (m : Manager) :
  let first := install_attempt W 0 pk sp m in
  let m1 := snd first in
  let retry := install_attempt W 1 pk sp m1 in
  exists evs0 evs1,
    trace m1 = trace m ++ evs0
    /\ trace (snd retry) = trace m1 ++ evs1
    /\ (wipes evs0 <= 1)%nat
    /\ wipes evs1 = 0%nat
    /\ (pip_failed evs0 = true -> fst first = None)
    /\ (forall r,
          fst first = Some r ->
          install_packages W pk sp m = (r, m1) /\ r = (true, None)
          /\ wipes evs0 = 0%nat)
    /\ (fst first = None ->
        wipes evs0 = 1%nat
        /\ last evs0 = Some ev_wipe
        /\ _initialized m1 = false
        /\ installed_packages m1 = ∅
        /\ (exists res,
              fst retry = Some res
              /\ install_packages W pk sp m = (res, snd retry)
              /\ (pip_failed evs1 = true -> fst res = false)
              /\ (fst res = false -> failure_report evs1 (snd res))
              /\ (fst res = true -> snd res = None))
        /\ (creations evs1
            = if negb (environment_exists W (clock m1)) && which_conda W (S (clock m1))
              then 1%nat else 0%nat)).
Proof.
  intros first m1 retry.
  destruct (install_attempt_events W 0 pk sp m) as (rest0 & T0 & S0 & _ & Hwiped).
  destruct (install_attempt_events W 1 pk sp m1) as (rest1 & T1 & S1 & Hc1 & _).
  fold first in T0, S0, Hwiped. fold m1 in T0, Hwiped. fold retry in T1, S1.
  eexists _, _. split; [exact T0|]. split; [exact T1|].
  destruct (second_pass _ _ S1) as (res & Hres & Hw1 & _ & Hp1 & Hrep & Hok).
  assert (Hcall : install_packages W pk sp m
                  = match fst first with
                    | Some r => (r, m1)
                    | None => (res, snd retry)
                    end).
  { unfold install_packages, install_loop. rewrite bind_run. fold first. fold m1.
    destruct (fst first) as [r|]; [reflexivity|].
    rewrite bind_run. fold retry. by rewrite Hres. }
  destruct (fst first) as [r|] eqn:Hfirst.
  - destruct (first_pass_done _ _ S0) as (-> & Hw & _ & Hp).
    split; [lia|]. split; [exact Hw1|]. split; [congruence|].
    split; [|discriminate].
    intros r [= <-]. by rewrite Hw.
  - destruct (first_pass_retry _ S0) as (Hw0 & _ & Hlast).
    split; [lia|]. split; [exact Hw1|]. split; [done|].
    split; [discriminate|]. intros _.
    destruct (Hwiped eq_refl) as (Hinit & Hinst).
    split; [exact Hw0|]. split; [exact Hlast|].
    split; [exact Hinit|]. split; [exact Hinst|]. split.
    { exists res. by repeat split. }
    change (ev_install_attempt 1 :: ensure_events W m1 ++ rest1)
      with ([ev_install_attempt 1] ++ ensure_events W m1 ++ rest1).
    rewrite !creations_app, Hc1. unfold ensure_events. rewrite Hinit.
    destruct (environment_exists W (clock m1)); [reflexivity|].
    by destruct (which_conda W (S (clock m1))).
Qed.

End OnMachine.

End EnvManagerFacts.

(** ** The correction loop *)

Module CorrectionFacts.

Import EnvManager.

Lemma failures_of_insert counts pkg v q :
  failures_of (<[pkg := v]> counts) q = if decide (pkg = q) then v else failures_of counts q.
Proof.
  unfold failures_of. rewrite lookup_insert. by destruct (decide (pkg = q)).
Qed.

(** Counting failures never lowers a count, and raises the count of every
    package of the list. *)
Lemma count_failures_grows counts pkgs q :
  failures_of counts q <= failures_of (count_failures counts pkgs) q
  /\ (q ∈ pkgs -> failures_of counts q + 1 <= failures_of (count_failures counts pkgs) q).
Proof.
  unfold count_failures. revert counts.
  induction pkgs as [|pkg pkgs IH]; intros counts; simpl.
  - split; [lia | set_solver].
  - destruct (IH (<[pkg := failures_of counts pkg + 1]> counts)) as [IH1 IH2].
    rewrite failures_of_insert in IH1, IH2.
    destruct (decide (pkg = q)) as [->|Hne].
    + split; [lia | intros _; lia].
    + split; [lia|]. intros [?|Hin]%elem_of_cons; [congruence | auto].
Qed.

Lemma remove_first_skip x pre l :
  x ∉ pre -> remove_first x (pre ++ x :: l) = pre ++ l.
Proof.
  induction pre as [|y pre IH]; simpl; intros Hx.
  - by rewrite String.eqb_refl.
  - destruct (String.eqb_spec y x) as [->|_]; [set_solver|].
    f_equal. apply IH. set_solver.
Qed.

(** Removing the first occurrence once per listed occurrence removes them
    all: the discard loop filters. *)
Lemma discard_from_filter (P : string -> bool) pre current discarded :
  (forall z, z ∈ pre -> P z = false) ->
  discard_from (List.filter P current) (pre ++ current) discarded
  = (pre ++ List.filter (fun z => negb (P z)) current,
     discarded ++ List.filter P current).
Proof.
  unfold discard_from. revert pre discarded.
  induction current as [|y current IH]; intros pre discarded Hpre; simpl.
  - by rewrite !app_nil_r.
  - destruct (P y) eqn:Hy; simpl.
    + rewrite bool_decide_true by set_solver.
      rewrite remove_first_skip.
      * rewrite (IH pre (discarded ++ [y]) Hpre). by rewrite <- app_assoc.
      * intros Hin. apply Hpre in Hin. congruence.
    + replace (pre ++ y :: current) with ((pre ++ [y]) ++ current)
        by (by rewrite <- app_assoc).
      rewrite IH.
      * by rewrite <- app_assoc.
      * intros z [?|Hz]%elem_of_app; [auto|].
        apply list_elem_of_singleton in Hz. by subst z.
Qed.

Lemma filter_none_all (P : string -> bool) l :
  List.filter P l = [] -> List.filter (fun z => negb (P z)) l = l.
Proof.
  induction l as [|y l IH]; simpl; [done|].
  destruct (P y); simpl; [discriminate|]. intros H. by rewrite IH.
Qed.

(** What a failed installation does to the locals of the loop. *)
Lemma on_package_failure_spec attempt package_error st :
  let counts :=
    count_failures (package_failure_counts st)
      (current_packages st ++ current_system_packages st) in
  let st' := on_package_failure attempt package_error st in
  package_failure_counts st' = counts
  /\ current_code st' = current_code st
  /\ current_packages st'
     = List.filter (fun z => negb (too_often counts z)) (current_packages st)
  /\ current_system_packages st'
     = List.filter (fun z => negb (too_often counts z)) (current_system_packages st)
  /\ fst (discarded_packages st')
     = fst (discarded_packages st) ++ List.filter (too_often counts) (current_packages st)
  /\ snd (discarded_packages st')
     = snd (discarded_packages st)
       ++ List.filter (too_often counts) (current_system_packages st).
Proof.
  intros counts st'. subst st'. unfold on_package_failure. fold counts.
  unfold to_discard.
  pose proof (discard_from_filter (too_often counts) [] (current_packages st)
                (fst (discarded_packages st))) as Hp.
  pose proof (discard_from_filter (too_often counts) [] (current_system_packages st)
                (snd (discarded_packages st))) as Hs.
  simpl in Hp, Hs.
  destruct (List.filter (too_often counts) (current_packages st)) as [|x xs] eqn:Ep.
  - destruct (List.filter (too_often counts) (current_system_packages st))
      as [|y ys] eqn:Es.
    + simpl. rewrite !app_nil_r.
      rewrite (filter_none_all _ _ Ep), (filter_none_all _ _ Es). done.
    + rewrite Hp, Hs by set_solver. simpl. rewrite app_nil_r. done.
  - rewrite Hp, Hs by set_solver. done.
Qed.

Lemma record_faults_lists attempt package_error syntax_error st :
  let st1 := on_package_failure attempt package_error st in
  let st' := record_faults attempt false package_error syntax_error st in
  current_packages st' = current_packages st1
  /\ current_system_packages st' = current_system_packages st1
  /\ discarded_packages st' = discarded_packages st1
  /\ package_failure_counts st' = package_failure_counts st1.
Proof. unfold record_faults. simpl. by destruct syntax_error. Qed.

Lemma dedup_subset seen l x : x ∈ Py.dedup_keep_first seen l -> x ∈ l.
Proof.
  revert seen. induction l as [|y l IH]; intros seen; simpl; [done|].
  destruct (bool_decide (y ∈ seen)).
  - intros H. right. by eapply IH.
  - intros [->|H]%elem_of_cons; [by left | right; by eapply IH].
Qed.

(** The model's correction keeps a package out unless it names it. *)
Lemma apply_correction_lists attempt response st p :
  p ∉ current_packages st -> p ∉ current_system_packages st ->
  ~ names_package response p ->
  let st' := apply_correction attempt response st in
  (p ∉ current_packages st') /\ (p ∉ current_system_packages st')
  /\ discarded_packages st' = discarded_packages st
  /\ package_failure_counts st' = package_failure_counts st.
Proof.
  intros Hp Hs Hn. unfold names_package in Hn.
  unfold apply_correction, _extract_code_from_llm_output.
  destruct (json_block response) as [data|].
  - destruct (String.eqb (default "" (jb_code data)) ""); simpl.
    + destruct (raw_python_block response); simpl; done.
    + destruct (jb_packages data), (jb_system_packages data);
        simpl in *; repeat split; try done; tauto.
  - destruct (String.eqb (cleaned_code response) ""); simpl.
    + destruct (raw_python_block response); simpl; done.
    + repeat split; try done. intros Hdup. apply dedup_subset in Hdup. set_solver.
Qed.

Section OnMachine.

Variable W : Machine.

(** A pass whose installation failed, and that is not the last, hands the
    recorded faults to the model and takes its correction. *)
Lemma after_failed_install function_name attempt package_error st m st' m' :
  after_install W function_name attempt (false, package_error) st m
  = (NextAttempt st', m') ->
  attempt <> MAX_RETRIES - 1
  /\ st' = apply_correction attempt (correction_llm W (clock m))
             (record_faults attempt false package_error
                (py_compile W (current_code st)) st).
Proof.
  unfold after_install. simpl.
  destruct (attempt =? MAX_RETRIES - 1) eqn:E; [discriminate|].
  apply Z.eqb_neq in E. unfold bind, ask, ret. simpl. intros [= <- _]. done.
Qed.

Lemma after_install_trace function_name attempt installed st m :
  trace (snd (after_install W function_name attempt installed st m)) = trace m.
Proof.
  unfold after_install, bind, ask, ret.
  repeat case_match; simplify_eq; done.
Qed.

(** Every pass starts by trying to install the current package lists. *)
Lemma correction_pass_starts function_name attempt st m :
  exists evs,
    trace (snd (correction_pass W function_name attempt st m))
    = trace m ++ ev_attempt attempt (current_packages st) (current_system_packages st)
                 :: evs.
Proof.
  unfold correction_pass. rewrite EnvManagerFacts.bind_run. simpl.
  rewrite EnvManagerFacts.bind_run. rewrite after_install_trace.
  match goal with
  | |- context [install_packages W ?a ?b ?m0] =>
      destruct (EnvManagerFacts.install_packages_events W a b m0) as (evs & T & _)
  end.
  exists evs. rewrite T. simpl. by rewrite <- app_assoc.
Qed.

(** C4, as amended.  A failed installation counts one failure for every
    package of the current lists; a package whose count has reached 2 is
    then removed from both lists and recorded as discarded.  So a package
    that was in the lists of the first two passes, both of which failed to
    install, is recorded as discarded after the second, and it is absent
    from the lists the third pass installs unless the model's correction
    after the second pass names it again. *)
Theorem discarded_package_stays_out (function_name : option string)
    (e0 e1 : option string) (st0 st1 st2 : loop_state) (m0 m0' m1 m1' : Manager)
    (p : string) :
  (forall q, 0 <= failures_of (package_failure_counts st0) q) ->
  after_install W function_name 0 (false, e0) st0 m0 = (NextAttempt st1, m0') ->
  after_install W function_name 1 (false, e1) st1 m1 = (NextAttempt st2, m1') ->
  p ∈ current_packages st0 ++ current_system_packages st0 ->
  p ∈ current_packages st1 ++ current_system_packages st1 ->
  ~ names_package (correction_llm W (clock m1)) p ->
  let prompted :=
    record_faults 1 false e1 (py_compile W (current_code st1)) st1 in
  (forall q, 2 <= failures_of (package_failure_counts prompted) q ->
             q ∉ current_packages prompted ++ current_system_packages prompted)
  /\ 2 <= failures_of (package_failure_counts prompted) p
  /\ p ∈ fst (discarded_packages st2) ++ snd (discarded_packages st2)
  /\ (p ∉ current_packages st2 ++ current_system_packages st2)
  /\ (forall m2, exists evs,
        trace (snd (correction_pass W function_name 2 st2 m2))
        = trace m2 ++ ev_attempt 2 (current_packages st2) (current_system_packages st2)
                      :: evs).
Proof.
  intros Hpos H0 H1 Hin0 Hin1 Hllm prompted.
  apply after_failed_install in H0 as [_ ->].
  apply after_failed_install in H1 as [_ ->]. fold prompted.
  (* the counts after the first and the second failed installation *)
  set (faults0 := record_faults 0 false e0 (py_compile W (current_code st0)) st0) in *.
  set (r0 := correction_llm W (clock m0)) in *.
  destruct (record_faults_lists 0 e0 (py_compile W (current_code st0)) st0)
    as (_ & _ & _ & Hc0). fold faults0 in Hc0.
  destruct (on_package_failure_spec 0 e0 st0) as (Hcount0 & _). simpl in Hcount0.
  rewrite Hcount0 in Hc0.
  assert (Hone : 1 <= failures_of (package_failure_counts (apply_correction 0 r0 faults0)) p).
  { assert (package_failure_counts (apply_correction 0 r0 faults0)
            = package_failure_counts faults0) as ->.
    { unfold apply_correction. destruct (_extract_code_from_llm_output _ _ _) as [[? ?] ?].
      destruct (negb _); [done|]. by destruct (raw_python_block r0). }
    rewrite Hc0.
    destruct (count_failures_grows (package_failure_counts st0)
                (current_packages st0 ++ current_system_packages st0) p) as [_ H].
    specialize (H Hin0). specialize (Hpos p). lia. }
  set (s1 := apply_correction 0 r0 faults0) in *.
  destruct (record_faults_lists 1 e1 (py_compile W (current_code s1)) s1)
    as (Hl1 & Hs1 & Hd1 & Hc1). fold prompted in Hl1, Hs1, Hd1, Hc1.
  destruct (on_package_failure_spec 1 e1 s1) as (Hcount1 & _ & Hlp & Hls & Hdp & Hds).
  simpl in Hcount1, Hlp, Hls, Hdp, Hds.
  set (counts1 := count_failures (package_failure_counts s1)
                    (current_packages s1 ++ current_system_packages s1)) in *.
  rewrite Hcount1 in Hc1. rewrite Hlp in Hl1. rewrite Hls in Hs1.
  assert (Hout : forall q, 2 <= failures_of counts1 q ->
                           q ∉ current_packages prompted ++ current_system_packages prompted).
  { intros q Hq. rewrite Hl1, Hs1. rewrite <- List.filter_app.
    rewrite list_elem_of_In, List.filter_In. intros [_ Hf].
    unfold too_often, max_package_failures in Hf.
    apply negb_true_iff in Hf. rewrite Z.geb_leb in Hf. apply Z.leb_gt in Hf. lia. }
  assert (Htwo : 2 <= failures_of counts1 p).
  { destruct (count_failures_grows (package_failure_counts s1)
                (current_packages s1 ++ current_system_packages s1) p) as [_ H].
    specialize (H Hin1). fold counts1 in H. lia. }
  split; [rewrite Hc1; exact Hout|]. split; [by rewrite Hc1|].
  specialize (Hout p Htwo).
  destruct (apply_correction_lists 1 (correction_llm W (clock m1)) prompted p)
    as (Hp2 & Hs2 & Hd2 & _); [set_solver | set_solver | done |].
  split; [|split; [set_solver | intros m2; apply correction_pass_starts]].
  rewrite Hd2, Hd1. rewrite elem_of_app, Hdp, Hds, !elem_of_app.
  assert (Hoften : too_often counts1 p = true).
  { unfold too_often, max_package_failures. rewrite Z.geb_leb. apply Z.leb_le. lia. }
  apply elem_of_app in Hin1 as [Hin1 | Hin1].
  - left. right. rewrite list_elem_of_In, List.filter_In, <- list_elem_of_In. done.
  - right. right. rewrite list_elem_of_In, List.filter_In, <- list_elem_of_In. done.
Qed.

End OnMachine.

End CorrectionFacts.

(** ** The runtime loop *)

Module RuntimeFacts.

Import EnvManager.
Import EnvManagerFacts.

(** A pair is a non-empty tuple: it counts as true whatever it holds. *)
Lemma install_result_truthy (r : bool * option string) :
  Py.truthy (install_result_value r) = true.
Proof. by destruct r as [ok [e|]]. Qed.

Lemma abort_not_install_event evs :
  Forall (fun e => is_install_event e = true) evs -> ev_abort_runtime_install ∉ evs.
Proof.
  intros H Hin. rewrite Forall_forall in H. apply H in Hin. discriminate Hin.
Qed.

Section OnMachine.

Variable W : Machine.

(** One pass of the loop on a failed run that names a missing module, with
    retries left: the packages are installed and the loop goes on, whatever
    the installation returned. *)
Lemma runtime_loop_retries fuel runtime_attempt code cp last m exec_process :
  run_script W (clock m) code = Ran exec_process ->
  returncode exec_process <> 0 ->
  missing_packages (stderr exec_process) <> [] ->
  runtime_attempt < MAX_RUNTIME_RETRIES ->
  let m1 := snd (ask (fun t => run_script W t code) (snd (log (ev_run runtime_attempt) m))) in
  runtime_loop W (S fuel) runtime_attempt code cp last m
  = runtime_loop W fuel (runtime_attempt + 1) code
      (track_packages cp (missing_packages (stderr exec_process)))
      (Some exec_process)
      (snd (install_packages W (missing_packages (stderr exec_process)) [] m1)).
Proof.
  intros Hrun Hrc Hmissing Hlt m1. simpl runtime_loop.
  replace (runtime_attempt <=? MAX_RUNTIME_RETRIES) with true by lia.
  rewrite bind_run. mred. rewrite bind_run. mred. rewrite Hrun.
  replace (returncode exec_process =? 0) with false by lia.
  destruct (missing_packages (stderr exec_process)) as [|p ps] eqn:E; [done|].
  replace (runtime_attempt <? MAX_RUNTIME_RETRIES) with true by lia.
  cbn [andb]. rewrite bind_run. cbv beta. rewrite ?install_result_truthy. reflexivity.
Qed.

(** The loop adds to the trace, never the abort of the [else] branch, and a
    pass within the budget starts by running the script. *)
Lemma runtime_loop_trace fuel runtime_attempt code cp last m :
  exists evs,
    trace (snd (runtime_loop W fuel runtime_attempt code cp last m)) = trace m ++ evs
    /\ (ev_abort_runtime_install ∉ evs)
    /\ (fuel <> 0%nat -> runtime_attempt <= MAX_RUNTIME_RETRIES ->
        exists tl, evs = ev_run runtime_attempt :: tl).
Proof.
  revert runtime_attempt cp last m.
  induction fuel as [|fuel IH]; intros runtime_attempt cp last m.
  { exists []. split; [by rewrite app_nil_r | split; [set_solver | done]]. }
  simpl runtime_loop.
  destruct (runtime_attempt <=? MAX_RUNTIME_RETRIES) eqn:Ea.
  2: { exists []. split; [by rewrite app_nil_r | split; [set_solver | lia]]. }
  rewrite bind_run. mred. rewrite bind_run. mred.
  destruct (run_script W (clock m) code) as [exec_process|e].
  2: { exists [ev_run runtime_attempt]. split; [done | split; [set_solver | eauto]]. }
  destruct (returncode exec_process =? 0).
  { exists [ev_run runtime_attempt]. split; [done | split; [set_solver | eauto]]. }
  destruct (missing_packages (stderr exec_process)) as [|p ps].
  { exists [ev_run runtime_attempt]. split; [done | split; [set_solver | eauto]]. }
  destruct (runtime_attempt <? MAX_RUNTIME_RETRIES); cbn [andb].
  2: { exists [ev_run runtime_attempt]. split; [done | split; [set_solver | eauto]]. }
  rewrite bind_run. cbv beta. rewrite ?install_result_truthy.
  match goal with
  | |- context [install_packages W ?a ?b ?m0] =>
      destruct (install_packages_events W a b m0) as (evs1 & T1 & Hev);
      destruct (IH (runtime_attempt + 1) (track_packages cp a) (Some exec_process)
                  (snd (install_packages W a b m0))) as (evs2 & T2 & Hno & _)
  end.
  exists (ev_run runtime_attempt :: evs1 ++ evs2). split; [|split; [|eauto]].
  - rewrite T2, T1. mred. by rewrite <- !app_assoc.
  - apply abort_not_install_event in Hev. set_solver.
Qed.

(** Three passes are enough: the loop has a result. *)
Lemma runtime_loop_total fuel runtime_attempt code cp last m :
  0 <= runtime_attempt <= MAX_RUNTIME_RETRIES ->
  (Z.to_nat (MAX_RUNTIME_RETRIES - runtime_attempt) < fuel)%nat ->
  is_Some (fst (runtime_loop W fuel runtime_attempt code cp last m)).
Proof.
  revert runtime_attempt cp last m.
  induction fuel as [|fuel IH]; intros runtime_attempt cp last m Ha Hfuel; [lia|].
  simpl runtime_loop.
  replace (runtime_attempt <=? MAX_RUNTIME_RETRIES) with true by lia.
  rewrite bind_run. mred. rewrite bind_run. mred.
  destruct (run_script W (clock m) code) as [exec_process|e]; [|by eexists].
  destruct (returncode exec_process =? 0); [by eexists|].
  destruct (missing_packages (stderr exec_process)) as [|p ps]; [by eexists|].
  destruct (runtime_attempt <? MAX_RUNTIME_RETRIES) eqn:E; cbn [andb]; [|by eexists].
  rewrite bind_run. cbv beta. rewrite ?install_result_truthy.
  apply IH; unfold MAX_RUNTIME_RETRIES in *; lia.
Qed.

(** C8.  When a run fails, names a missing module and retries are left, the
    missing packages are installed and the script is run again, whether the
    installation succeeded or not: what [install_packages] returns is a
    pair, which counts as true, so the branch that gives up after a failed
    installation is never taken.  The loop ends within three runs. *)
Theorem runtime_retry_ignores_install_result (runtime_attempt : Z) (code : string)
    (cp : list string) (last : option CompletedProcess) (m : Manager)
    (exec_process : CompletedProcess) :
  run_script W (clock m) code = Ran exec_process ->
  returncode exec_process <> 0 ->
  missing_packages (stderr exec_process) <> [] ->
  0 <= runtime_attempt < MAX_RUNTIME_RETRIES ->
  let missing_pkgs := missing_packages (stderr exec_process) in
  let m1 := snd (ask (fun t => run_script W t code) (snd (log (ev_run runtime_attempt) m))) in
  let installed := install_packages W missing_pkgs [] m1 in
  let fuel := Z.to_nat (MAX_RUNTIME_RETRIES - runtime_attempt) in
  let r := runtime_loop W (S fuel) runtime_attempt code cp last m in
  (forall result, Py.truthy (install_result_value result) = true)
  /\ r = runtime_loop W fuel (runtime_attempt + 1) code
           (track_packages cp missing_pkgs) (Some exec_process) (snd installed)
  /\ (exists evs, trace (snd r) = trace (snd installed) ++ ev_run (runtime_attempt + 1) :: evs)
  /\ (ev_abort_runtime_install ∉ drop (length (trace m)) (trace (snd r)))
  /\ is_Some (fst r).
Proof.
  intros Hrun Hrc Hmissing Ha missing_pkgs m1 installed fuel r.
  assert (Hr : r = runtime_loop W fuel (runtime_attempt + 1) code
                     (track_packages cp missing_pkgs) (Some exec_process) (snd installed)).
  { subst r. by rewrite (runtime_loop_retries _ _ _ _ _ _ _ Hrun Hrc Hmissing) by lia. }
  split; [apply install_result_truthy|]. split; [exact Hr|]. split; [|split].
  - rewrite Hr.
    assert (Hfuel : exists fuel', fuel = S fuel').
    { subst fuel. unfold MAX_RUNTIME_RETRIES in *.
      exists (Z.to_nat (2 - runtime_attempt - 1)). lia. }
    destruct Hfuel as [fuel' ->].
    destruct (runtime_loop_trace (S fuel') (runtime_attempt + 1) code
                (track_packages cp missing_pkgs) (Some exec_process) (snd installed))
      as (evs & T & _ & Hhead).
    destruct Hhead as [tl ->]; [done | lia |]. by exists tl.
  - destruct (runtime_loop_trace (S fuel) runtime_attempt code cp last m)
      as (evs & T & Hno & _).
    subst r. rewrite T. by rewrite drop_app_length.
  - subst r fuel. apply runtime_loop_total; unfold MAX_RUNTIME_RETRIES in *; lia.
Qed.

End OnMachine.

End RuntimeFacts.

(** ** The workflow on examples *)

Module WorkflowExamples.

Import Workflow.
Import Samples.

(** Extends the run [R] by the node it stands at, run on the input [x]. *)
Ltac advance R x :=
  lazymatch type of R with
  | run ?jl ?q ((?n, ?s) :: ?h) =>
      let r := eval vm_compute in (run_node jl n x s) in
      lazymatch r with
      | Some ?s1 =>
          let r' := eval vm_compute in (next_node n s1) in
          lazymatch r' with
          | Some ?n1 =>
              let R' := fresh "R" in
              assert (R' : run jl q ((n1, s1) :: (n, s) :: h))
                by (apply (run_step jl q (n, s) (n1, s1) h R);
                    apply (step_intro jl n x s s1 n1); vm_compute; reflexivity);
              clear R; rename R' into R
          end
      end
  end.

(** A run that reaches [validate] and, on a failed validation, loops back. *)
Lemma validation_retry_limit_witness :
  exists history state,
    run no_json "compute 17 * 4" ((n_validate, state) :: history)
    /\ next_node n_validate (validate_node "[Error] no module" state) = Some n_generate.
Proof.
  pose proof (run_entry no_json "compute 17 * 4") as R.
  advance R (ext_plan PlanNone).
  advance R (ext_user_input false "" "").
  advance R ext_none.
  advance R (ext_resolve new_tool).
  advance R (ext_brainstorm multiply_tool).
  advance R ext_none.
  advance R (ext_generate same_code).
  eexists _, _. split; [exact R|].
  eapply (WorkflowFacts.validation_retry_limit no_json _ _ _ _ "[Error] no module" R);
    [reflexivity | vm_compute; reflexivity].
Defined.

(** C1 as stated fails: from a counter of zero, the first two failed
    validations loop back to [generate], the third one routes to [fail]; the
    workflow has then looped back twice, not [MAX_RETRIES] (3) times. *)
Lemma third_failed_validation_routes_to_fail :
  let err := "[Error] no module" in
  let s0 := create_default_agent_state "compute 17 * 4" in
  let s1 := validate_node err (generate_node same_code s0) in
  let s2 := validate_node err (generate_node same_code s1) in
  let s3 := validate_node err (generate_node same_code s2) in
  next_node n_validate s1 = Some n_generate
  /\ next_node n_validate s2 = Some n_generate
  /\ next_node n_validate s3 = Some n_fail
  /\ generation_retry_count s3 = MAX_RETRIES.
Proof. vm_compute. repeat split. Qed.

(** A run that reaches [review] with an answer from the cache; the model's
    verdict is plain prose, and the review is not passed. *)
Lemma review_of_unparsable_verdict_witness :
  exists history state answer,
    run no_json "compute 17 * 4" ((n_review, state) :: history)
    /\ final_answer state = Some answer
    /\ review_passed
         (review_node no_json (LLMContent "The answer looks complete.") state) = false
    /\ next_node n_review
         (review_node no_json (LLMContent "The answer looks complete.") state)
       = Some n_plan.
Proof.
  pose proof (run_entry no_json "compute 17 * 4") as R.
  advance R (ext_plan PlanNone).
  advance R (ext_user_input false "" "").
  advance R ext_none.
  advance R (ext_resolve cache_hit).
  advance R ext_none.
  eexists _, _, _. split; [exact R|]. split; [reflexivity|].
  lazymatch type of R with
  | run _ _ ((_, ?s) :: _) =>
      pose proof (WorkflowFacts.review_of_unparsable_verdict no_json s _
                    "The answer looks complete." eq_refl eq_refl) as H
  end.
  destruct H as (Hpassed & _ & Hnext & _).
  split; [exact Hpassed | exact Hnext].
Defined.

(** C2 as stated fails: an answer with no JSON in it does not parse, and the
    review of the final answer is not passed, whatever [json.loads] does. *)
Lemma unparsable_review_is_not_passed :
  ~ (exists json_loads,
       review_passed
         (review_node json_loads (LLMContent "The answer looks complete.") answered)
       = true).
Proof. intros [json_loads H]. vm_compute in H. discriminate H. Qed.

(** A run that reaches [finish] through a cache hit. *)
Lemma finish_keeps_index_in_plan_witness :
  exists state state',
    reachable no_json "compute 17 * 4" (n_finish, state)
    /\ finish_node state = Some state'
    /\ current_subtask_idx state' = 0
    /\ current_subtask_failure_count state' = 0.
Proof.
  pose proof (run_entry no_json "compute 17 * 4") as R.
  advance R (ext_plan PlanNone).
  advance R (ext_user_input false "" "").
  advance R ext_none.
  advance R (ext_resolve cache_hit).
  lazymatch type of R with
  | run _ _ ((_, ?s) :: ?h) =>
      assert (Hreach : reachable no_json "compute 17 * 4" (n_finish, s))
        by (exists h; exact R)
  end.
  destruct (WorkflowFacts.finish_keeps_index_in_plan no_json _ _ Hreach)
    as (subs & state' & Hsubs & Hfinish & _ & _ & Hlast & _ & _ & Hcount).
  eexists _, state'. split; [exact Hreach|]. split; [exact Hfinish|].
  split; [|exact Hcount].
  rewrite Hlast; [reflexivity|]. simpl in Hsubs. injection Hsubs as <-.
  vm_compute. discriminate.
Defined.

Lemma plan_resets_progress_witness :
  exists state',
    plan_node PlanNone (create_default_agent_state "compute 17 * 4") = Some state'
    /\ current_subtask_idx state' = 0
    /\ subtask_results state' = Some [].
Proof.
  eexists. split; [reflexivity|].
  split; eapply (WorkflowFacts.plan_resets_progress no_json PlanNone); reflexivity.
Defined.

End WorkflowExamples.

(** ** The environment manager on examples *)

Module EnvManagerExamples.

Import EnvManager.
Import Samples.

(** On [conda_quiet_on_retry] pip fails in the first pass: the environment
    is wiped, the retry is the call's outcome, and its message is made of
    pip's error text alone, conda having failed in the first pass only. *)
Lemma install_packages_wipes_once_witness :
  let first :=
    install_attempt conda_quiet_on_retry 0 ["nonexistent-pkg-xyz"] [] fresh_manager in
  let retry :=
    install_attempt conda_quiet_on_retry 1 ["nonexistent-pkg-xyz"] [] (snd first) in
  _initialized (snd first) = false
  /\ exists res,
       fst retry = Some res
       /\ install_packages conda_quiet_on_retry ["nonexistent-pkg-xyz"] [] fresh_manager
          = (res, snd retry)
       /\ res = (false,
                 Some (final_error +:+ Py.nl +:+ "Pip installation failed:" +:+ Py.nl
                       +:+ stderr pip_fails)).
Proof.
  destruct (EnvManagerFacts.install_packages_wipes_once conda_quiet_on_retry
              ["nonexistent-pkg-xyz"] [] fresh_manager)
    as (evs0 & evs1 & _ & _ & _ & _ & _ & _ & Hretry).
  destruct Hretry as (_ & _ & Hinit & _ & (res & Hres & Hcall & _) & _);
    [vm_compute; reflexivity|].
  split; [exact Hinit|]. exists res. split; [exact Hres|]. split; [exact Hcall|].
  vm_compute in Hres. injection Hres as <-. vm_compute. reflexivity.
Defined.

(** C3 as stated fails.  On [nothing_installs], pip fails after conda in the
    first pass, the retried sequence fails, and the message contains neither
    backend's error text; on [conda_quiet_on_retry], pip fails in both
    passes, and the message lacks conda's error text. *)
Lemma failure_message_may_lack_backend_errors :
  let r := install_packages nothing_installs ["nonexistent-pkg-xyz"] [] fresh_manager in
  let r' :=
    install_packages conda_quiet_on_retry ["nonexistent-pkg-xyz"] [] fresh_manager in
  (pip_failed (trace (snd r)) = true
   /\ fst (fst r) = false
   /\ snd (fst r) = Some "Failed to ensure environment is ready."
   /\ Py.contains (message_of r) (stderr pip_fails) = false
   /\ Py.contains (message_of r) (stderr conda_fails) = false)
  /\ (pip_failed (trace (snd r')) = true
      /\ fst (fst r') = false
      /\ Py.contains (message_of r') (stderr pip_fails) = true
      /\ Py.contains (message_of r') (stderr conda_fails) = false).
Proof. vm_compute. repeat split. Qed.

Lemma discarded_package_stays_out_witness :
  exists st1 st2 m1 m2,
    after_install (pip_never_installs code_only) None 0 (false, Some "pip failed")
      start fresh_manager = (NextAttempt st1, m1)
    /\ after_install (pip_never_installs code_only) None 1 (false, Some "pip failed")
         st1 m1 = (NextAttempt st2, m2)
    /\ "nonexistent-pkg-xyz" ∉ current_packages st2 ++ current_system_packages st2.
Proof.
  let r := eval vm_compute in
    (after_install (pip_never_installs code_only) None 0 (false, Some "pip failed")
       start fresh_manager) in
  lazymatch r with
  | (NextAttempt ?st1, ?m1) =>
      let r' := eval vm_compute in
        (after_install (pip_never_installs code_only) None 1
           (false, Some "pip failed") st1 m1) in
      lazymatch r' with
      | (NextAttempt ?st2, ?m2) =>
          exists st1, st2, m1, m2;
          assert (H0 : after_install (pip_never_installs code_only) None 0
                         (false, Some "pip failed") start fresh_manager
                       = (NextAttempt st1, m1)) by (vm_compute; reflexivity);
          assert (H1 : after_install (pip_never_installs code_only) None 1
                         (false, Some "pip failed") st1 m1
                       = (NextAttempt st2, m2)) by (vm_compute; reflexivity);
          split; [exact H0|]; split; [exact H1|];
          refine (proj1 (proj2 (proj2 (proj2
                    (CorrectionFacts.discarded_package_stays_out
                       (pip_never_installs code_only) None _ _ _ _ _ _ _ _ _
                       "nonexistent-pkg-xyz" _ H0 H1 _ _ _)))))
      end
  end.
  - intros q. vm_compute. discriminate.
  - vm_compute. left.
  - vm_compute. left.
  - vm_compute. intros [H|H]; inversion H.
Defined.

(** C4 as stated fails.  On a machine where the package never installs and
    the model declares it again in each correction, the package is discarded
    after the second failed pass (the fault log says so) and is back in the
    list the third pass installs. *)
Lemma discarded_package_can_return :
  let r :=
    execute_code (pip_never_installs same_package_again) "" user_code
      ["nonexistent-pkg-xyz"] [] None None fresh_manager in
  let lists := attempted_lists (trace (snd r)) in
  lists !! 0%nat = Some (["nonexistent-pkg-xyz"], [])
  /\ lists !! 1%nat = Some (["nonexistent-pkg-xyz"], [])
  /\ lists !! 2%nat = Some (["nonexistent-pkg-xyz"], [])
  /\ (exists e,
        fst r = Some (error_response e)
        /\ Py.contains e
             "[Attempt 1] Package installation failed" = true
        /\ Py.contains e
             "[Attempt 2] Discarded persistently failing packages - Regular: ['nonexistent-pkg-xyz']"
           = true).
Proof. vm_compute. repeat split. eexists. repeat split. Qed.

Example missing_packages_of_submodule :
  missing_packages "ModuleNotFoundError: No module named 'sklearn.model_selection'"
  = ["sklearn"].
Proof. reflexivity. Qed.

Example missing_packages_none :
  missing_packages "ImportError: cannot import name 'x' from 'y'" = [].
Proof. reflexivity. Qed.

(** The installation of the missing module fails, and the script is run a
    second time all the same. *)
Lemma runtime_retry_ignores_install_result_witness :
  let m1 :=
    snd (ask (fun t => run_script module_missing t print_one)
           (snd (log (ev_run 0) fresh_manager))) in
  let installed := install_packages module_missing ["requests"] [] m1 in
  let r := runtime_loop module_missing 3 0 print_one [] None fresh_manager in
  fst (fst installed) = false
  /\ exists evs, trace (snd r) = trace (snd installed) ++ ev_run 1 :: evs.
Proof.
  split; [vm_compute; reflexivity|].
  refine (proj1 (proj2 (proj2
            (RuntimeFacts.runtime_retry_ignores_install_result module_missing
               0 print_one [] None fresh_manager missing_requests _ _ _ _)))).
  - reflexivity.
  - vm_compute. discriminate.
  - vm_compute. discriminate.
  - vm_compute. split; [discriminate | reflexivity].
Defined.

End EnvManagerExamples.
